(** * Stakeholder summary service: the synthesis pipeline

    A shallow embedding of [summary/utils.py], [summary/models.py] and
    [summary/services.py].  Python [str] is [string] (one character per
    code point), Python [int] is [Z], dynamically shaped data (what
    [json.loads] returns, the [summary_data] dictionaries) is [pyval].
    Functions that may raise return a [result]; functions that also touch
    the database or the language model run in the monad [M] over [world]. *)

From Stdlib Require Import ZArith QArith List String Ascii Bool Lia DecimalString.
Import ListNotations.
Local Open Scope string_scope.
Local Open Scope Z_scope.

(** ** Python values and exceptions *)

#[local] Set Warnings "-register-all".

Inductive pyval : Type :=
| PyNone
| PyBool (b : bool)
| PyInt (z : Z)
| PyFloat (literal : string)
| PyStr (s : string)
| PyList (l : list pyval)
| PyDict (d : list (string * pyval)).

(** The class of a raised object.  [OtherException] stands for any other
    class derived from [Exception]; [NonException] for a class derived from
    [BaseException] only: [KeyboardInterrupt], [SystemExit],
    [GeneratorExit]. *)
Inductive exn_class : Type :=
| NameError
| TypeError
| KeyError
| JSONDecodeError
| IntegrityError
| OtherException (class_name : string)
| NonException (class_name : string).

(** An exception is its class and [str(e)]. *)
Record exn : Type := Exn { exn_cls : exn_class; exn_str : string }.

(** [isinstance(e, Exception)]: what [except Exception] catches. *)
Definition is_exception (e : exn) : bool :=
  match exn_cls e with
  | NonException _ => false
  | _ => true
  end.

Inductive result (A : Type) : Type :=
| Ok (a : A)
| Raise (e : exn).
Arguments Ok {A} a.
Arguments Raise {A} e.

Definition is_ok {A} (r : result A) : bool :=
  match r with Ok _ => true | Raise _ => false end.

(** ** String helpers *)

(** [len(s)] *)
Definition len (s : string) : Z := Z.of_nat (String.length s).

(** [sep.join(parts)] *)
Definition join (sep : string) (parts : list string) : string :=
  String.concat sep parts.

(** [s[:k]]: the first [k] characters, or all but the last [-k] when [k] is negative. *)
Definition slice_to (s : string) (k : Z) : string :=
  if 0 <=? k then substring 0 (Z.to_nat k) s
  else substring 0 (Z.to_nat (len s + k)) s.

(** [needle in hay] on two strings. *)
Definition str_contains (needle hay : string) : bool :=
  match index 0 needle hay with Some _ => true | None => false end.

(** [str(n)] for a natural number. *)
Definition nat_str (n : nat) : string := NilZero.string_of_uint (Nat.to_uint n).

Definition newline : string := String (ascii_of_nat 10) EmptyString.

(** [c.isspace()], for the code points below 256: tab to carriage return,
    the four separators before the space, the space, NEL and the
    no-break space. *)
Definition is_space (c : ascii) : bool :=
  let n := nat_of_ascii c in
  (((9 <=? n) && (n <=? 13)) || ((28 <=? n) && (n <=? 32))
   || (n =? 133) || (n =? 160))%nat.

(** [s.split()]: the maximal runs of characters that are not whitespace;
    [word] is the run being read. *)
Fixpoint split_from (s : string) (word : string) : list string :=
  match s with
  | EmptyString =>
      match word with
      | EmptyString => []
      | _ => [word]
      end
  | String c rest =>
      if is_space c then
        match word with
        | EmptyString => split_from rest EmptyString
        | _ => word :: split_from rest EmptyString
        end
      else split_from rest (word ++ String c EmptyString)
  end.

Definition str_split (s : string) : list string := split_from s EmptyString.

(** [s.lstrip()], [s.rstrip()], [s.strip()] *)
Fixpoint lstrip (s : string) : string :=
  match s with
  | EmptyString => EmptyString
  | String c rest => if is_space c then lstrip rest else s
  end.

Fixpoint rstrip (s : string) : string :=
  match s with
  | EmptyString => EmptyString
  | String c rest =>
      match rstrip rest with
      | EmptyString => if is_space c then EmptyString else String c EmptyString
      | kept => String c kept
      end
  end.

Definition str_strip (s : string) : string := rstrip (lstrip s).

(** [s.replace(c, '')] for a single character [c]. *)
Fixpoint remove_char (c : ascii) (s : string) : string :=
  match s with
  | EmptyString => EmptyString
  | String a rest =>
      if Ascii.eqb a c then remove_char c rest else String a (remove_char c rest)
  end.

(** [l[:k]] on a list. *)
Definition list_slice_to {A : Type} (l : list A) (k : Z) : list A :=
  if 0 <=? k then firstn (Z.to_nat k) l
  else firstn (Z.to_nat (Z.of_nat (List.length l) + k)) l.

(** A text without whitespace, and a word: such a text that is not empty. *)
Fixpoint no_space (s : string) : bool :=
  match s with
  | EmptyString => true
  | String c rest => negb (is_space c) && no_space rest
  end.

Definition is_word (s : string) : bool :=
  match s with
  | EmptyString => false
  | _ => no_space s
  end.

(** A text in which the character [c] does not occur. *)
Fixpoint lacks_char (c : ascii) (s : string) : bool :=
  match s with
  | EmptyString => true
  | String a rest => negb (Ascii.eqb a c) && lacks_char c rest
  end.

(** ** Dictionaries: insertion-ordered, keys unique *)

Definition pydict : Type := list (string * pyval).

Fixpoint dict_get (k : string) (d : pydict) : option pyval :=
  match d with
  | [] => None
  | (k', v) :: rest => if String.eqb k k' then Some v else dict_get k rest
  end.

Definition dict_has (k : string) (d : pydict) : bool :=
  match dict_get k d with Some _ => true | None => false end.

(** [d[k] = v]: overwrite in place, or append a new key. *)
Fixpoint dict_set (k : string) (v : pyval) (d : pydict) : pydict :=
  match d with
  | [] => [(k, v)]
  | (k', v') :: rest =>
      if String.eqb k k' then (k', v) :: rest else (k', v') :: dict_set k v rest
  end.

(** ** [summary/utils.py] *)

Module Utils.

(** [estimate_tokens]: [len(text) // 4]. *)
Definition estimate_tokens (text : string) : Z := len text / 4.

(** [truncate_text] *)
Definition truncate_text (text : string) (max_tokens : Z) : string :=
  let estimated_tokens := estimate_tokens text in
  if estimated_tokens <=? max_tokens then text
  else
    let char_limit := max_tokens * 4 in
    slice_to text char_limit ++ "...".


(** [generate_summary_id] *)
Definition generate_summary_id (job_id : string) : string := "sum_" ++ job_id.

(** [validate_document_ids] *)
Definition validate_document_ids (document_ids : list pyval) : bool :=
  match document_ids with
  | [] => false
  | _ =>
      if (50 <? List.length document_ids)%nat then false
      else
        forallb (fun doc_id =>
                   match doc_id with
                   | PyStr s => negb (String.eqb s "")
                   | _ => false
                   end)
          document_ids
  end.

(** [merge_summaries] *)
Definition merge_summaries (summaries : list string) (max_length : Z)
  : string :=
  match summaries with
  | [] => ""
  | [only] => only
  | _ =>
      let combined := join " " summaries in
      let words := str_split combined in
      if Z.of_nat (List.length words) <=? max_length then combined
      else
        let truncated_words := list_slice_to words max_length in
        join " " truncated_words ++ "..."
  end.

(** [sanitize_input] *)
Definition sanitize_input (text : string) : string :=
  let text := remove_char zero text in
  let text := join " " (str_split text) in
  str_strip text.

End Utils.

(** ** [summary/models.py] *)

Module Models.

(** [STATUS_CHOICES] *)
Inductive job_status : Type := pending | processing | completed | failed.

(** [STAKEHOLDER_ROLES] *)
Definition STAKEHOLDER_ROLES : list (string * string) :=
  [ ("developer", "Developer"); ("contractor", "Contractor");
    ("architect", "Architect"); ("client", "Client");
    ("project_manager", "Project Manager"); ("legal", "Legal");
    ("finance", "Finance"); ("executive", "Executive") ].

(** [SummaryJob].  The timestamps the ORM maintains on its own
    ([created_at], [updated_at]) are not assigned by any method and are
    left out; [completed_at] is a clock reading. *)
Record SummaryJob : Type := mkSummaryJob {
  id : string;
  project_id : string;
  stakeholder_role : string;
  document_ids : list string;
  focus_areas : list string;
  max_length : Z;
  status : job_status;
  error_message : option string;
  model_used : option string;
  tokens_used : option Z;
  processing_time : option Q;
  completed_at : option Z
}.

(** Truth value of the optional arguments of [mark_completed]. *)
Definition truthy_str (a : option string) : bool :=
  match a with
  | None => false
  | Some s => negb (String.eqb s "")
  end.

Definition truthy_int (a : option Z) : bool :=
  match a with
  | None => false
  | Some z => negb (z =? 0)
  end.

Definition truthy_float (a : option Q) : bool :=
  match a with
  | None => false
  | Some q => negb (Qeq_bool q 0)
  end.

(** The three transitions are modelled as the assignments they make to
    the job object.  The [self.save(...)] that ends each of them is a
    [Services.job_write], issued where [Services.generate_summary] calls
    the method. *)

(** [SummaryJob.mark_processing] *)
Definition mark_processing (self : SummaryJob) : SummaryJob :=
  mkSummaryJob (id self) (project_id self) (stakeholder_role self)
    (document_ids self) (focus_areas self) (max_length self)
    processing
    (error_message self) (model_used self) (tokens_used self)
    (processing_time self) (completed_at self).

(** [SummaryJob.mark_completed]; [now] is the reading of [timezone.now()]. *)
Definition mark_completed (now : Z) (model_used' : option string)
    (tokens_used' : option Z) (processing_time' : option Q)
    (self : SummaryJob) : SummaryJob :=
  mkSummaryJob (id self) (project_id self) (stakeholder_role self)
    (document_ids self) (focus_areas self) (max_length self)
    completed
    (error_message self)
    (if truthy_str model_used' then model_used' else model_used self)
    (if truthy_int tokens_used' then tokens_used' else tokens_used self)
    (if truthy_float processing_time' then processing_time'
     else processing_time self)
    (Some now).

(** [SummaryJob.mark_failed] *)
Definition mark_failed (now : Z) (error_message' : string)
    (self : SummaryJob) : SummaryJob :=
  mkSummaryJob (id self) (project_id self) (stakeholder_role self)
    (document_ids self) (focus_areas self) (max_length self)
    failed
    (Some error_message')
    (model_used self) (tokens_used self) (processing_time self)
    (Some now).










(** [GeneratedSummary]; [job] is the one-to-one key, held as the job's id. *)
Record GeneratedSummary : Type := mkGeneratedSummary {
  gs_id : string;
  gs_job : string;
  gs_project_id : string;
  gs_stakeholder_role : string;
  gs_full_summary : pyval
}.

(** [SummarySection]; [summary] is the foreign key, held as the summary's id. *)
Record SummarySection : Type := mkSummarySection {
  sec_summary : string;
  sec_title : pyval;
  sec_content : pyval;
  sec_order : Z;
  sec_key_points : pyval;
  sec_evidence_ids : pyval
}.

(** [DocumentContext] *)
Record DocumentContext : Type := mkDocumentContext {
  dc_job : string;
  dc_document_id : string;
  dc_document_type : string;
  dc_extracted_text : string;
  dc_metadata : pydict;
  dc_relevance_score : option Q
}.

End Models.

(** ** Dynamic operations on Python values *)

Definition type_name (v : pyval) : string :=
  match v with
  | PyNone => "NoneType"
  | PyBool _ => "bool"
  | PyInt _ => "int"
  | PyFloat _ => "float"
  | PyStr _ => "str"
  | PyList _ => "list"
  | PyDict _ => "dict"
  end.

(** [None], booleans and numbers: the values [in] cannot search. *)
Definition is_scalar (v : pyval) : bool :=
  match v with
  | PyNone | PyBool _ | PyInt _ | PyFloat _ => true
  | _ => false
  end.

Definition is_str (s : string) (v : pyval) : bool :=
  match v with
  | PyStr t => String.eqb s t
  | _ => false
  end.

(** [isinstance(v, str)] *)
Definition is_text (v : pyval) : bool :=
  match v with
  | PyStr _ => true
  | _ => false
  end.

Definition chars (s : string) : list pyval :=
  map (fun c => PyStr (String c EmptyString)) (list_ascii_of_string s).

(** [item in container] for a string [item]. *)
Definition py_contains (item : string) (container : pyval) : result bool :=
  match container with
  | PyDict d => Ok (dict_has item d)
  | PyList l => Ok (existsb (is_str item) l)
  | PyStr s => Ok (str_contains item s)
  | v => Raise (Exn TypeError
                  ("argument of type '" ++ type_name v ++ "' is not iterable"))
  end.

(** A list or a text in which both ['sections'] and ['full_summary'] are
    found by [in], without its being a dictionary. *)
Definition mentions_both_keys (v : pyval) : bool :=
  match v with
  | PyList l =>
      existsb (is_str "sections") l && existsb (is_str "full_summary") l
  | PyStr s => str_contains "sections" s && str_contains "full_summary" s
  | _ => false
  end.

(** [container[key]] for a string [key]. *)
Definition py_getitem (container : pyval) (key : string) : result pyval :=
  match container with
  | PyDict d =>
      match dict_get key d with
      | Some v => Ok v
      | None => Raise (Exn KeyError ("'" ++ key ++ "'"))
      end
  | PyStr _ => Raise (Exn TypeError "string indices must be integers, not 'str'")
  | PyList _ =>
      Raise (Exn TypeError "list indices must be integers or slices, not str")
  | v => Raise (Exn TypeError
                  ("'" ++ type_name v ++ "' object is not subscriptable"))
  end.

(** [container[key] = value] for a string [key]; the result is the updated
    dictionary. *)
Definition py_setitem (container : pyval) (key : string) (value : pyval)
  : result pydict :=
  match container with
  | PyDict d => Ok (dict_set key value d)
  | PyList _ =>
      Raise (Exn TypeError "list indices must be integers or slices, not str")
  | v => Raise (Exn TypeError
                  ("'" ++ type_name v ++ "' object does not support item assignment"))
  end.

(** [d.get(key, default)] *)
Definition dict_get_default (key : string) (default : pyval) (d : pydict)
  : pyval :=
  match dict_get key d with
  | Some v => v
  | None => default
  end.

(** The items a [for] loop draws from a value. *)
Definition py_iter (v : pyval) : result (list pyval) :=
  match v with
  | PyList l => Ok l
  | PyDict d => Ok (map (fun kv => PyStr (fst kv)) d)
  | PyStr s => Ok (chars s)
  | v => Raise (Exn TypeError ("'" ++ type_name v ++ "' object is not iterable"))
  end.

(** The integer an operand of [+] stands for.  Float arithmetic is not
    modelled: the operands read back from ['tokens_used'] are the integers
    [_single_document_summary] stored. *)
Definition int_operand (v : pyval) : result Z :=
  match v with
  | PyInt z => Ok z
  | PyBool b => Ok (if b then 1 else 0)
  | v => Raise (Exn TypeError
                  ("unsupported operand type(s) for +: 'int' and '"
                     ++ type_name v ++ "'"))
  end.

(** [sep.join(items)]: every item must be a [str]. *)
Fixpoint str_items (i : nat) (items : list pyval) : result (list string) :=
  match items with
  | [] => Ok []
  | PyStr s :: rest =>
      match str_items (S i) rest with
      | Ok l => Ok (s :: l)
      | Raise e => Raise e
      end
  | v :: _ =>
      Raise (Exn TypeError ("sequence item " ++ nat_str i
                              ++ ": expected str instance, "
                              ++ type_name v ++ " found"))
  end.

Definition py_join (sep : string) (items : list pyval) : result string :=
  match str_items 0 items with
  | Ok l => Ok (join sep l)
  | Raise e => Raise e
  end.

(** ** The text chunker *)

Module Chunker.
Local Open Scope nat_scope.

(** Modelled from the spec: the search for a natural boundary of section
    4.2, missing with the rest of the chunker.  The end of the last
    occurrence of [sep] that closes at a position in [(lo, lo + n]] of
    [text], if there is one. *)
Fixpoint last_break (sep text : string) (lo n : nat) : option nat :=
  match n with
  | O => None
  | S n' =>
      let i := lo + n in
      if (String.length sep <=? i)
         && String.eqb (substring (i - String.length sep) (String.length sep) text) sep
      then Some i
      else last_break sep text lo n'
  end.

(** Modelled from the spec: the cut of section 4.2, missing with the rest
    of the chunker.  The first chunk of an oversized [text] ends at the
    last paragraph break inside the window, else at the last sentence
    break, else at the hard limit.  A break is only taken past the overlap,
    so that the next chunk starts further on. *)
Definition cut_point (text : string) (target_chunk_size overlap : nat) : nat :=
  let paragraph := newline ++ newline in
  match last_break paragraph text overlap (target_chunk_size - overlap) with
  | Some i => i
  | None =>
      match last_break ". " text overlap (target_chunk_size - overlap) with
      | Some i => i
      | None => target_chunk_size
      end
  end.

(** Modelled from the spec: the chunking loop of section 4.2, missing with
    the rest of the chunker; [fuel] bounds the number of cuts. *)
Fixpoint split_fuel (fuel : nat) (text : string)
    (target_chunk_size overlap : nat) : list string :=
  match fuel with
  | O => [text]
  | S fuel' =>
      if String.length text <=? target_chunk_size then [text]
      else
        let cut := cut_point text target_chunk_size overlap in
        let start := cut - overlap in
        substring 0 cut text
          :: split_fuel fuel'
               (substring start (String.length text - start) text)
               target_chunk_size overlap
  end.

(** Modelled from the spec: the chunker is LangChain's
    [RecursiveCharacterTextSplitter], whose code is not part of the
    repository.  [split(text, target_chunk_size, overlap)] follows section
    4.2: an input that fits the window is one chunk; a longer one is cut at
    a paragraph or sentence break found in the window, else at the hard
    limit, and the next chunk starts [overlap] characters before the cut. *)
Definition split (text : string) (target_chunk_size overlap : nat)
  : list string :=
  split_fuel (String.length text) text target_chunk_size overlap.

End Chunker.

(** ** [summary/services.py] *)

Module Services.
Import Models.

(** An entry of [STAKEHOLDER_PROMPTS]. *)
Record StakeholderConfig : Type := mkConfig {
  focus : string;
  sections : list string
}.

Definition STAKEHOLDER_PROMPTS : list (string * StakeholderConfig) :=
  [ ("developer",
     mkConfig "technical specifications, building codes, construction methods, and quality standards"
       ["Technical Overview"; "Quality Standards"; "Compliance Requirements"; "Key Risks"]);
    ("contractor",
     mkConfig "project scope, timelines, resources, change orders, and deliverables"
       ["Project Scope"; "Timeline & Milestones"; "Resource Requirements"; "Change Management"]);
    ("architect",
     mkConfig "design intent, specifications, building codes, and design changes"
       ["Design Overview"; "Specifications"; "Code Compliance"; "Design Changes"]);
    ("client",
     mkConfig "project progress, budget status, timeline, and quality outcomes"
       ["Project Status"; "Budget Summary"; "Timeline"; "Quality Assurance"]);
    ("project_manager",
     mkConfig "overall status, risks, issues, resource allocation, and stakeholder coordination"
       ["Executive Summary"; "Risk & Issues"; "Resource Status"; "Key Decisions"]);
    ("legal",
     mkConfig "contractual obligations, compliance, claims, disputes, and liability"
       ["Contractual Overview"; "Compliance Status"; "Claims & Disputes"; "Risk Exposure"]);
    ("finance",
     mkConfig "costs, budget variance, payment status, and financial forecasts"
       ["Financial Summary"; "Budget Variance"; "Cash Flow"; "Financial Risks"]);
    ("executive",
     mkConfig "high-level status, strategic risks, financial health, and key decisions needed"
       ["Executive Summary"; "Strategic Overview"; "Financial Health"; "Critical Actions"]) ].

Fixpoint prompts_lookup (role : string)
    (table : list (string * StakeholderConfig)) : option StakeholderConfig :=
  match table with
  | [] => None
  | (r, c) :: rest => if String.eqb role r then Some c else prompts_lookup role rest
  end.

(** [STAKEHOLDER_PROMPTS[role]] *)
Definition prompts_getitem (role : string) : result StakeholderConfig :=
  match prompts_lookup role STAKEHOLDER_PROMPTS with
  | Some c => Ok c
  | None => Raise (Exn KeyError ("'" ++ role ++ "'"))
  end.

(** [STAKEHOLDER_PROMPTS.get(role, default)] *)
Definition prompts_get (role : string) (default : StakeholderConfig)
  : StakeholderConfig :=
  match prompts_lookup role STAKEHOLDER_PROMPTS with
  | Some c => c
  | None => default
  end.

(** The keyword arguments of [chain.run]: the variables of the two prompt
    templates, which are themselves constant. *)
Record prompt : Type := mkPrompt {
  p_stakeholder_role : string;
  p_focus : string;
  p_max_length : Z;
  p_content : string;
  p_sections : string;
  p_focus_areas : string
}.

(** A row handed to [objects.create]. *)
Inductive db_row : Type :=
| RowContext (r : DocumentContext)
| RowSummary (r : GeneratedSummary)
| RowSection (r : SummarySection).

(** What the service acts on: the log of model invocations issued so far
    and the three tables it writes. *)
Record world : Type := mkWorld {
  llm_calls : list prompt;
  document_contexts : list DocumentContext;
  generated_summaries : list GeneratedSummary;
  summary_sections : list SummarySection
}.

Definition empty_world : world := mkWorld [] [] [] [].

(** Modelled from the spec: [self.text_splitter.split_text], as the
    spec's chunker at the window and overlap that [__init__] passes to the
    library splitter, whose code is missing. *)
Definition text_splitter (text : string) : list string :=
  Chunker.split text 4000 200.

Definition log_call (p : prompt) (w : world) : world :=
  mkWorld (llm_calls w ++ [p]) (document_contexts w)
    (generated_summaries w) (summary_sections w).

Definition insert_row (row : db_row) (w : world) : world :=
  match row with
  | RowContext r =>
      mkWorld (llm_calls w) (document_contexts w ++ [r])
        (generated_summaries w) (summary_sections w)
  | RowSummary r =>
      mkWorld (llm_calls w) (document_contexts w)
        (generated_summaries w ++ [r]) (summary_sections w)
  | RowSection r =>
      mkWorld (llm_calls w) (document_contexts w)
        (generated_summaries w) (summary_sections w ++ [r])
  end.

(** A write of the job's row: [self.save(update_fields=[...])] writes the
    named columns, [self.save()] every column.  The job is the object as
    it is when saved. *)
Inductive job_write : Type :=
| SaveFields (update_fields : list string) (job : SummaryJob)
| SaveAll (job : SummaryJob).

(** State and exceptions: effects made before a [raise] stay. *)
Definition M (A : Type) : Type := world -> result A * world.

Definition ret {A} (a : A) : M A := fun w => (Ok a, w).

Definition bind {A B} (m : M A) (k : A -> M B) : M B :=
  fun w =>
    match m w with
    | (Ok a, w') => k a w'
    | (Raise e, w') => (Raise e, w')
    end.

Definition lift {A} (r : result A) : M A := fun w => (r, w).

Notation "x <- m ;; k" := (bind m (fun x => k))
  (at level 61, m at next level, right associativity).
Notation "' pat <- m ;; k" := (bind m (fun x => match x with pat => k end))
  (at level 61, pat pattern, m at next level, right associativity).

(** What a name visible inside [_parse_llm_response] denotes; the body only
    ever asks a name for a job's [max_length]. *)
Inductive denotation : Type :=
| IsJob (j : SummaryJob)
| NotAJob.

(** The parameters and locals of [_parse_llm_response], then the names the
    module binds at top level.  Past these Python consults the builtins,
    none of which is called [job]. *)
Definition parse_llm_response_scope : list (string * denotation) :=
  map (fun n => (n, NotAJob))
    [ "self"; "response"; "stakeholder_config"; "document_ids";
      "json"; "data"; "sections"; "i"; "section_title";
      "logging"; "time"; "List"; "Dict"; "Any"; "Optional"; "datetime";
      "settings"; "ChatOpenAI"; "ChatPromptTemplate";
      "SystemMessagePromptTemplate"; "HumanMessagePromptTemplate";
      "LLMChain"; "get_openai_callback"; "RecursiveCharacterTextSplitter";
      "BaseModel"; "Field"; "SummaryJob"; "GeneratedSummary";
      "SummarySection"; "DocumentContext"; "logger"; "SectionOutput";
      "SummaryOutput"; "SummaryGenerationService"; "_summary_service";
      "get_summary_service" ].

Fixpoint scope_lookup (name : string) (scope : list (string * denotation))
  : option denotation :=
  match scope with
  | [] => None
  | (n, d) :: rest => if String.eqb name n then Some d else scope_lookup name rest
  end.

(** Evaluating the name [name] in the body of [_parse_llm_response]. *)
Definition load_name (name : string) : result denotation :=
  match scope_lookup name parse_llm_response_scope with
  | Some d => Ok d
  | None => Raise (Exn NameError ("name '" ++ name ++ "' is not defined"))
  end.

(** One element of the fallback's [sections] list. *)
Definition fallback_section (document_ids : list string) (section_title : string)
  : pyval :=
  PyDict
    [ ("title", PyStr section_title);
      ("content",
       PyStr ("[Content for " ++ section_title ++ " - parsed from response]"));
      ("key_points",
       PyList [ PyStr ("Key point 1 for " ++ section_title);
                PyStr ("Key point 2 for " ++ section_title) ]);
      ("evidence_ids",
       PyList (map PyStr
                 (match document_ids with
                  | [] => []
                  | _ => firstn 2 document_ids
                  end))) ].

(** The part of [_parse_llm_response] after the [try] block. *)
Definition parse_fallback (response : string)
    (stakeholder_config : StakeholderConfig) (document_ids : list string)
  : result pyval :=
  let sections' :=
    map (fallback_section document_ids) (sections stakeholder_config) in
  match load_name "job" with
  | Raise e => Raise e
  | Ok d =>
      let full_summary :=
        match d with
        | IsJob job => slice_to response (max_length job * 5)
        | NotAJob => slice_to response 2500
        end in
      Ok (PyDict [ ("sections", PyList sections');
                   ("full_summary", PyStr full_summary);
                   ("tokens_used", PyInt 0) ])
  end.

Section Pipeline.

(** [json.loads]: the decoded value, or the exception it raises. *)
Variable json_loads : string -> result pyval.

(** [self.text_splitter.split_text], a [RecursiveCharacterTextSplitter]
    built with [chunk_size=4000], [chunk_overlap=200]. *)
Variable split_text : string -> list string.

(** [chain.run(...)] under [get_openai_callback()]: what the [k]-th
    invocation answers to a prompt, the raw text with [cb.total_tokens],
    or the exception it raises. *)
Variable llm : nat -> prompt -> result (string * Z).

(** The database's verdict on an insert: [None] when the row is accepted. *)
Variable db_reject : world -> db_row -> option exn.

(** The database's verdict on [job.save(...)], the call that ends each of
    [mark_processing], [mark_completed] and [mark_failed]: [None] when the
    write is accepted, else the exception [save] raises. *)
Variable save_reject : world -> job_write -> option exn.

(** [self.model_name] *)
Variable model_name : string.

(** The readings of [time.time()] on entry and after the records are
    written, and of [timezone.now()] in [mark_completed] and in
    [mark_failed]. *)
Variable time_start time_end : Q.
Variable now : Z.
Variable now_failed : Z.

(** [Model.objects.create(...)] *)
Definition objects_create (row : db_row) : M unit :=
  fun w =>
    match db_reject w row with
    | Some e => (Raise e, w)
    | None => (Ok tt, insert_row row w)
    end.

(** One model invocation: it is logged whether or not it answers. *)
Definition chain_run (p : prompt) : M (string * Z) :=
  fun w => (llm (List.length (llm_calls w)) p, log_call p w).

(** [_parse_llm_response] *)
Definition _parse_llm_response (response : string)
    (stakeholder_config : StakeholderConfig) (document_ids : list string)
  : result pyval :=
  match json_loads response with
  | Ok data =>
      match py_contains "sections" data with
      | Raise e => Raise e
      | Ok false => parse_fallback response stakeholder_config document_ids
      | Ok true =>
          match py_contains "full_summary" data with
          | Raise e => Raise e
          | Ok false => parse_fallback response stakeholder_config document_ids
          | Ok true => Ok data
          end
      end
  | Raise (Exn JSONDecodeError _) =>
      parse_fallback response stakeholder_config document_ids
  | Raise e => Raise e
  end.

(** The prompt [_single_document_summary] sends for [content]. *)
Definition build_prompt (job : SummaryJob) (content : string)
    (stakeholder_config : StakeholderConfig) : prompt :=
  let focus_str :=
    match focus_areas job with
    | [] => focus stakeholder_config
    | _ => join ", " (focus_areas job)
    end in
  mkPrompt (stakeholder_role job) (focus stakeholder_config) (max_length job)
    content (join ", " (sections stakeholder_config)) focus_str.

(** [_single_document_summary] *)
Definition _single_document_summary (job : SummaryJob) (content : string)
    (stakeholder_config : StakeholderConfig) : M pydict :=
  '(response, tokens_used) <- chain_run (build_prompt job content stakeholder_config) ;;
  summary_data <- lift (_parse_llm_response response stakeholder_config
                          (document_ids job)) ;;
  lift (py_setitem summary_data "tokens_used" (PyInt tokens_used)).

(** The [for] loop of [_multi_document_synthesis]. *)
Fixpoint map_chunks (job : SummaryJob) (stakeholder_config : StakeholderConfig)
    (chunks : list string) (chunk_summaries : list pyval) (total_tokens : Z)
  : M (list pyval * Z) :=
  match chunks with
  | [] => ret (chunk_summaries, total_tokens)
  | chunk :: rest =>
      chunk_summary <- _single_document_summary job chunk stakeholder_config ;;
      full <- lift (py_getitem (PyDict chunk_summary) "full_summary") ;;
      used <- lift (int_operand
                      (dict_get_default "tokens_used" (PyInt 0) chunk_summary)) ;;
      map_chunks job stakeholder_config rest
        (chunk_summaries ++ [full]) (total_tokens + used)
  end.

(** [_multi_document_synthesis] *)
Definition _multi_document_synthesis (job : SummaryJob) (chunks : list string)
    (stakeholder_config : StakeholderConfig) : M pydict :=
  '(chunk_summaries, total_tokens) <-
     map_chunks job stakeholder_config chunks [] 0 ;;
  combined_summaries <- lift (py_join (newline ++ newline) chunk_summaries) ;;
  final_summary <-
    _single_document_summary job combined_summaries stakeholder_config ;;
  used <- lift (int_operand
                  (dict_get_default "tokens_used" (PyInt 0) final_summary)) ;;
  ret (dict_set "tokens_used" (PyInt (total_tokens + used)) final_summary).

(** [_combine_document_texts] *)
Definition _combine_document_texts (contexts : list DocumentContext) : string :=
  join (newline ++ newline)
    (map (fun ctx =>
            "--- Document " ++ dc_document_id ctx ++ " ---" ++ newline
              ++ dc_extracted_text ctx ++ newline)
         contexts).

(** [_generate_with_langchain] *)
Definition _generate_with_langchain (job : SummaryJob)
    (contexts : list DocumentContext) : M (pydict * pyval) :=
  default <- lift (prompts_getitem "executive") ;;
  let stakeholder_config := prompts_get (stakeholder_role job) default in
  let combined_text := _combine_document_texts contexts in
  let chunks := split_text combined_text in
  summary_data <-
    (if (1 <? List.length chunks)%nat
     then _multi_document_synthesis job chunks stakeholder_config
     else _single_document_summary job combined_text stakeholder_config) ;;
  let tokens_used := dict_get_default "tokens_used" (PyInt 0) summary_data in
  ret (summary_data, tokens_used).

(** [_fetch_document_contexts] *)
Fixpoint fetch_loop (job : SummaryJob) (doc_ids : list string)
    (contexts : list DocumentContext) : M (list DocumentContext) :=
  match doc_ids with
  | [] => ret contexts
  | doc_id :: rest =>
      let context :=
        mkDocumentContext (id job) doc_id "unknown"
          ("[Document " ++ doc_id
             ++ " content would be fetched from ingestion service]")
          [] (Some 1%Q) in
      _ <- objects_create (RowContext context) ;;
      fetch_loop job rest (contexts ++ [context])
  end.

Definition _fetch_document_contexts (job : SummaryJob)
  : M (list DocumentContext) :=
  fetch_loop job (document_ids job) [].

(** The section loop of [_create_summary_records]. *)
Fixpoint create_sections (summary : GeneratedSummary)
    (items : list pyval) (i : Z) : M unit :=
  match items with
  | [] => ret tt
  | section_data :: rest =>
      title <- lift (py_getitem section_data "title") ;;
      content <- lift (py_getitem section_data "content") ;;
      let fields :=
        match section_data with PyDict d => d | _ => [] end in
      _ <- objects_create
             (RowSection
                (mkSummarySection (gs_id summary) title content i
                   (dict_get_default "key_points" (PyList []) fields)
                   (dict_get_default "evidence_ids" (PyList []) fields))) ;;
      create_sections summary rest (i + 1)
  end.

(** [_create_summary_records] *)
Definition _create_summary_records (job : SummaryJob) (summary_data : pydict)
  : M GeneratedSummary :=
  full <- lift (py_getitem (PyDict summary_data) "full_summary") ;;
  let summary :=
    mkGeneratedSummary ("sum_" ++ id job) (id job) (project_id job)
      (stakeholder_role job) full in
  _ <- objects_create (RowSummary summary) ;;
  sections' <- lift (py_getitem (PyDict summary_data) "sections") ;;
  items <- lift (py_iter sections') ;;
  _ <- create_sections summary items 0 ;;
  ret summary.

(** The three stages of [generate_summary] between [mark_processing] and
    [mark_completed]. *)
Definition generate_body (job : SummaryJob) : M (GeneratedSummary * pyval) :=
  document_contexts <- _fetch_document_contexts job ;;
  '(summary_data, tokens_used) <-
     _generate_with_langchain job document_contexts ;;
  summary <- _create_summary_records job summary_data ;;
  ret (summary, tokens_used).

(** The [tokens_used] argument as [mark_completed] stores it in an integer
    column. *)
Definition tokens_argument (v : pyval) : option Z :=
  match v with
  | PyInt z => Some z
  | PyBool b => Some (if b then 1 else 0)
  | _ => None
  end.

(** What a call of [generate_summary] leaves: what it returns or raises, the
    job object, the writes of the job's row that the database accepted, in
    order, and the world. *)
Definition run_outcome : Type :=
  (result GeneratedSummary * SummaryJob * list job_write * world)%type.

(** The [try] block of [generate_summary].  Each [mark_*] method assigns
    to the job object and then saves it, so the object keeps the
    assignments when the save raises. *)
Definition try_block (job : SummaryJob) (w : world) : run_outcome :=
  let job := mark_processing job in
  let processing := SaveFields ["status"; "updated_at"] job in
  match save_reject w processing with
  | Some e => (Raise e, job, [], w)
  | None =>
      match generate_body job w with
      | (Raise e, w') => (Raise e, job, [processing], w')
      | (Ok (summary, tokens_used), w') =>
          let processing_time := (time_end - time_start)%Q in
          let job :=
            mark_completed now (Some model_name)
              (tokens_argument tokens_used) (Some processing_time) job in
          match save_reject w' (SaveAll job) with
          | Some e => (Raise e, job, [processing], w')
          | None => (Ok summary, job, [processing; SaveAll job], w')
          end
      end
  end.

(** [except Exception as e: job.mark_failed(str(e)); raise].  An exception
    outside [Exception] passes through; an exception raised by the save of
    [mark_failed] replaces the one being handled. *)
Definition except_exception (e : exn) (job : SummaryJob)
    (saved : list job_write) (w : world) : run_outcome :=
  if is_exception e then
    let job := mark_failed now_failed (exn_str e) job in
    match save_reject w (SaveAll job) with
    | Some e' => (Raise e', job, saved, w)
    | None => (Raise e, job, (saved ++ [SaveAll job])%list, w)
    end
  else (Raise e, job, saved, w).

(** [generate_summary] *)
Definition generate_summary (job : SummaryJob) (w : world) : run_outcome :=
  match try_block job w with
  | (Ok summary, job', saved, w') => (Ok summary, job', saved, w')
  | (Raise e, job', saved, w') => except_exception e job' saved w'
  end.

End Pipeline.

(** ** Vocabulary for statements about runs *)

(** The entry [STAKEHOLDER_PROMPTS['executive']]. *)
Definition executive_profile : StakeholderConfig :=
  match prompts_lookup "executive" STAKEHOLDER_PROMPTS with
  | Some c => c
  | None => mkConfig "" []
  end.

(** The world after the invocations [ps] have been issued, in order. *)
Definition log_calls (ps : list prompt) (w : world) : world :=
  mkWorld (llm_calls w ++ ps) (document_contexts w)
    (generated_summaries w) (summary_sections w).

(** The row [_create_summary_records] writes first. *)
Definition summary_row (job : SummaryJob) (full : pyval) : GeneratedSummary :=
  mkGeneratedSummary ("sum_" ++ id job) (id job) (project_id job)
    (stakeholder_role job) full.

(** Nothing of a summary was written between [w] and [w']. *)
Definition same_summaries (w w' : world) : Prop :=
  generated_summaries w' = generated_summaries w /\
  summary_sections w' = summary_sections w.

(** No summary row was written between [w] and [w']. *)
Definition same_summary_rows (w w' : world) : Prop :=
  generated_summaries w' = generated_summaries w.

(** Between [w] and [w'] only prompts built for [job] under
    [stakeholder_config] were sent, and nothing else changed. *)
Definition only_prompts_of (job : SummaryJob)
    (stakeholder_config : StakeholderConfig) (w w' : world) : Prop :=
  exists ps,
    w' = log_calls ps w /\
    Forall (fun p =>
              p_stakeholder_role p = stakeholder_role job /\
              p_focus p = focus stakeholder_config /\
              p_sections p = join ", " (sections stakeholder_config)) ps.

(** Every run of [m], whether it returns or raises, relates the world it
    starts in to the world it leaves by [R]. *)
Definition preserves {A} (R : world -> world -> Prop) (m : M A) : Prop :=
  forall w r w', m w = (r, w') -> R w w'.

Definition sum_tokens (answers : list (string * Z)) : Z :=
  fold_right Z.add 0 (map snd answers).

(** The context [_fetch_document_contexts] creates for one document id. *)
Definition placeholder_context (job : SummaryJob) (doc_id : string)
  : DocumentContext :=
  mkDocumentContext (id job) doc_id "unknown"
    ("[Document " ++ doc_id
       ++ " content would be fetched from ingestion service]")
    [] (Some 1%Q).

(** The world after the context rows [cs] have been stored. *)
Definition add_contexts (cs : list DocumentContext) (w : world) : world :=
  mkWorld (llm_calls w) (document_contexts w ++ cs)
    (generated_summaries w) (summary_sections w).

(** The world after the section rows [rows] have been stored. *)
Definition add_sections (rows : list SummarySection) (w : world) : world :=
  mkWorld (llm_calls w) (document_contexts w) (generated_summaries w)
    (summary_sections w ++ rows).

(** The row [_create_summary_records] writes for the section [d] found at
    position [i]. *)
Definition section_row (summary_id : string) (i : Z) (d : pydict)
  : SummarySection :=
  mkSummarySection summary_id
    (dict_get_default "title" PyNone d)
    (dict_get_default "content" PyNone d)
    i
    (dict_get_default "key_points" (PyList []) d)
    (dict_get_default "evidence_ids" (PyList []) d).

Fixpoint section_rows (summary_id : string) (i : Z) (ds : list pydict)
  : list SummarySection :=
  match ds with
  | [] => []
  | d :: rest => section_row summary_id i d :: section_rows summary_id (i + 1) rest
  end.

(** The world after a summary row and its section rows have been stored. *)
Definition add_records (summary : GeneratedSummary)
    (rows : list SummarySection) (w : world) : world :=
  mkWorld (llm_calls w) (document_contexts w)
    (generated_summaries w ++ [summary]) (summary_sections w ++ rows).

(** A section carrying the two keys [_create_summary_records] subscripts. *)
Definition has_title_and_content (d : pydict) : bool :=
  dict_has "title" d && dict_has "content" d.

(** A database that accepts every insert. *)
Definition accepts_all (db_reject : world -> db_row -> option exn) : Prop :=
  forall w row, db_reject w row = None.

(** The write [mark_processing] makes of a job. *)
Definition processing_write (job : SummaryJob) : job_write :=
  SaveFields ["status"; "updated_at"] (mark_processing job).

(** A database that enforces the primary key of [GeneratedSummary]. *)
Definition enforces_summary_key (db_reject : world -> db_row -> option exn)
  : Prop :=
  forall w r,
    existsb (fun r' => String.eqb (gs_id r') (gs_id r)) (generated_summaries w)
    = true ->
    db_reject w (RowSummary r) <> None.

Section Replies.

Variable json_loads : string -> result pyval.
Variable llm : nat -> prompt -> result (string * Z).

(** The [k]-th invocation answers [p], for [t] tokens, with a text that
    decodes to the dictionary [d], which holds both keys. *)
Definition good_reply (k : nat) (p : prompt) (d : pydict) (t : Z) : Prop :=
  exists response,
    llm k p = Ok (response, t) /\
    json_loads response = Ok (PyDict d) /\
    dict_has "sections" d = true /\
    dict_has "full_summary" d = true.

(** Invocations [k], [k+1], ... answer the prompts for [chunks], in order,
    with such replies; [answers] lists the text each carries under
    ['full_summary'] and the tokens each used. *)
Inductive map_answers (job : SummaryJob) (stakeholder_config : StakeholderConfig)
  : nat -> list string -> list (string * Z) -> Prop :=
| map_answers_nil : forall k, map_answers job stakeholder_config k [] []
| map_answers_cons : forall k chunk chunks d s t answers,
    good_reply k (build_prompt job chunk stakeholder_config) d t ->
    dict_get "full_summary" d = Some (PyStr s) ->
    map_answers job stakeholder_config (S k) chunks answers ->
    map_answers job stakeholder_config k (chunk :: chunks) ((s, t) :: answers).


(** The same, whatever value each reply carries under ['full_summary']. *)
Inductive map_replies (job : SummaryJob) (stakeholder_config : StakeholderConfig)
  : nat -> list string -> list (pyval * Z) -> Prop :=
| map_replies_nil : forall k, map_replies job stakeholder_config k [] []
| map_replies_cons : forall k chunk chunks d v t replies,
    good_reply k (build_prompt job chunk stakeholder_config) d t ->
    dict_get "full_summary" d = Some v ->
    map_replies job stakeholder_config (S k) chunks replies ->
    map_replies job stakeholder_config k (chunk :: chunks) ((v, t) :: replies).

End Replies.

End Services.

(** ** Sample collaborators for the worked runs *)

Module Samples.
Import Models Services.

Definition dq : string := String (ascii_of_nat 34) EmptyString.

Fixpoint letters (n : nat) : string :=
  match n with
  | O => EmptyString
  | S k => String "a"%char (letters k)
  end.

(** The response text [{"sections": [], "full_summary": "<s>"}] and the
    value it decodes to, for [s] free of quotes and escapes. *)
Definition reply_with (s : string) : string :=
  "{" ++ dq ++ "sections" ++ dq ++ ": [], "
      ++ dq ++ "full_summary" ++ dq ++ ": " ++ dq ++ s ++ dq ++ "}".

Definition reply_value (s : string) : pyval :=
  PyDict [ ("sections", PyList []); ("full_summary", PyStr s) ].

(** The response text [{"sections": [{"title": "A"}], "full_summary": "s"}]:
    a section without its content. *)
Definition reply_no_content : string :=
  "{" ++ dq ++ "sections" ++ dq ++ ": [{" ++ dq ++ "title" ++ dq ++ ": "
      ++ dq ++ "A" ++ dq ++ "}], "
      ++ dq ++ "full_summary" ++ dq ++ ": " ++ dq ++ "s" ++ dq ++ "}".

Definition reply_no_content_value : pyval :=
  PyDict [ ("sections", PyList [ PyDict [ ("title", PyStr "A") ] ]);
           ("full_summary", PyStr "s") ].

(** The response text [{"sections": []}]: no narrative. *)
Definition reply_no_summary : string :=
  "{" ++ dq ++ "sections" ++ dq ++ ": []}".

(** An excerpt of [json.loads]: the decodings of the response texts the
    runs below feed it; the other text they feed it, plain prose, is
    rejected at its first character. *)
Definition json_excerpt : list (string * pyval) :=
  [ (reply_with "s", reply_value "s");
    (reply_with "first part", reply_value "first part");
    (reply_with "second part", reply_value "second part");
    (reply_with (letters 3000), reply_value (letters 3000));
    (reply_no_content, reply_no_content_value);
    (reply_no_summary, PyDict [ ("sections", PyList []) ]);
    ("42", PyInt 42) ].

Fixpoint excerpt_lookup (text : string) (table : list (string * pyval))
  : option pyval :=
  match table with
  | [] => None
  | (t, v) :: rest => if String.eqb text t then Some v else excerpt_lookup text rest
  end.

Definition json_loads_excerpt (text : string) : result pyval :=
  match excerpt_lookup text json_excerpt with
  | Some v => Ok v
  | None =>
      Raise (Exn JSONDecodeError "Expecting value: line 1 column 1 (char 0)")
  end.

(** A database that enforces the keys [models.py] declares: the primary
    key of [GeneratedSummary] and its one-to-one link to the job. *)
Definition db_keys (w : world) (row : db_row) : option exn :=
  match row with
  | RowSummary r =>
      if existsb (fun r' => String.eqb (gs_id r') (gs_id r)
                            || String.eqb (gs_job r') (gs_job r))
           (generated_summaries w)
      then Some (Exn IntegrityError
                   "duplicate key value violates unique constraint")
      else None
  | _ => None
  end.

(** A database that accepts every write of a job's row. *)
Definition save_open : world -> job_write -> option exn := fun _ _ => None.

Definition sample_job : SummaryJob :=
  mkSummaryJob "job-1" "project-1" "finance" ["doc1"; "doc2"; "doc3"] []
    500 pending None None None None None.

(** A job as [generate_summary] leaves it after a successful run. *)
Definition finished_job : SummaryJob :=
  mkSummaryJob "job-0" "project-1" "legal" ["doc1"] [] 500 completed None
    (Some "gpt-4") (Some 1000) (Some (11 # 2)%Q) (Some 1700000000).

(** A job whose role is none of the eight. *)
Definition auditor_job : SummaryJob :=
  mkSummaryJob "job-2" "project-1" "auditor" ["doc1"] [] 500 pending
    None None None None None.

Definition context_of (doc_id text : string) : DocumentContext :=
  mkDocumentContext "job-1" doc_id "unknown" text [] (Some 1%Q).

(** One short document, and one that does not fit a 4000-character window. *)
Definition short_context : DocumentContext :=
  context_of "doc1" "The budget is on track.".

Definition long_context : DocumentContext :=
  context_of "doc1" (letters 4100).

(** A model that answers every prompt with the same text and usage. *)
Definition llm_constant (text : string) (tokens : Z)
  : nat -> prompt -> result (string * Z) :=
  fun _ _ => Ok (text, tokens).

(** A model that is out of reach. *)
Definition llm_down : nat -> prompt -> result (string * Z) :=
  fun _ _ => Raise (Exn (OtherException "RateLimitError") "Rate limit reached").

(** A model that answers the [k]-th invocation from a list. *)
Definition llm_script (answers : list (string * Z))
  : nat -> prompt -> result (string * Z) :=
  fun k _ =>
    match nth_error answers k with
    | Some a => Ok a
    | None => Raise (Exn (OtherException "RateLimitError") "Rate limit reached")
    end.

End Samples.

(** ** Further sample collaborators *)

Module MoreSamples.
Import Models Services.

(** A database that accepts every row. *)
Definition db_open : world -> db_row -> option exn := fun _ _ => None.

(** A database that holds [document_id] to the 100 characters
    [models.py] declares for it. *)
Definition db_varchar (w : world) (row : db_row) : option exn :=
  match row with
  | RowContext c =>
      if (100 <? String.length (dc_document_id c))%nat
      then Some (Exn (OtherException "DataError")
                   "value too long for type character varying(100)")
      else None
  | _ => None
  end.

(** A database that holds [tokens_used] to the 32 bits of the integer
    column [models.py] declares for it.  A write of the status columns
    alone does not send the count. *)
Definition save_int32 (w : world) (wr : job_write) : option exn :=
  match wr with
  | SaveFields _ _ => None
  | SaveAll job =>
      match tokens_used job with
      | Some t =>
          if (2147483647 <? t) || (t <? -2147483648)
          then Some (Exn (OtherException "DataError") "integer out of range")
          else None
      | None => None
      end
  end.

(** A database that is gone: every write of the job's row raises. *)
Definition save_closed : world -> job_write -> option exn :=
  fun _ _ =>
    Some (Exn (OtherException "OperationalError")
            "server closed the connection unexpectedly").

(** A database that goes away after the first write of the job's row. *)
Definition save_lost (w : world) (wr : job_write) : option exn :=
  match wr with
  | SaveFields _ _ => None
  | SaveAll _ =>
      Some (Exn (OtherException "OperationalError")
              "server closed the connection unexpectedly")
  end.

(** A model call that the user interrupts: [str(KeyboardInterrupt())] is
    empty. *)
Definition llm_interrupted : nat -> prompt -> result (string * Z) :=
  fun _ _ => Raise (Exn (NonException "KeyboardInterrupt") "").

(** A splitter that returns a text of at most 4000 characters whole and
    cuts a longer one into two windows of 4000 characters, the second
    starting 200 characters before the first one ends. *)
Definition two_windows (text : string) : list string :=
  if (String.length text <=? 4000)%nat then [text]
  else [substring 0 4000 text; substring 3800 4000 text].

(** A job whose second document id is 101 characters long. *)
Definition long_id_job : SummaryJob :=
  mkSummaryJob "job-3" "project-1" "legal"
    ["doc1"; Samples.letters 101; "doc3"] [] 500 pending
    None None None None None.

(** A job that failed earlier. *)
Definition failed_earlier_job : SummaryJob :=
  mkSummaryJob "job-1" "project-1" "finance" ["doc1"] [] 500 failed
    (Some "Rate limit reached") None None None (Some 1600000000).

(** A world that already stores the summary of [Samples.sample_job]. *)
Definition stored_world : world :=
  mkWorld [] [] [summary_row Samples.sample_job (PyStr "old")] [].

(** Response texts and the values they decode to:
    [{"sections": [{"title": "A", "content": "c"}, {"title": "B",
    "content": "d", "key_points": ["k"]}], "full_summary": "s"}],
    [["sections", "full_summary"]],
    [{"sections": [], "full_summary": "s", "tokens_used": 999}] and
    [{"sections": [], "full_summary": null}]. *)
Definition quoted (s : string) : string := Samples.dq ++ s ++ Samples.dq.

Definition reply_two_sections : string :=
  "{" ++ quoted "sections" ++ ": [{" ++ quoted "title" ++ ": " ++ quoted "A"
      ++ ", " ++ quoted "content" ++ ": " ++ quoted "c" ++ "}, {"
      ++ quoted "title" ++ ": " ++ quoted "B" ++ ", "
      ++ quoted "content" ++ ": " ++ quoted "d" ++ ", "
      ++ quoted "key_points" ++ ": [" ++ quoted "k" ++ "]}], "
      ++ quoted "full_summary" ++ ": " ++ quoted "s" ++ "}".

Definition two_sections : list pydict :=
  [ [ ("title", PyStr "A"); ("content", PyStr "c") ];
    [ ("title", PyStr "B"); ("content", PyStr "d");
      ("key_points", PyList [PyStr "k"]) ] ].

Definition reply_key_list : string :=
  "[" ++ quoted "sections" ++ ", " ++ quoted "full_summary" ++ "]".

Definition reply_own_tokens : string :=
  "{" ++ quoted "sections" ++ ": [], " ++ quoted "full_summary" ++ ": "
      ++ quoted "s" ++ ", " ++ quoted "tokens_used" ++ ": 999}".

Definition own_tokens : pydict :=
  [ ("sections", PyList []); ("full_summary", PyStr "s");
    ("tokens_used", PyInt 999) ].

Definition reply_null_summary : string :=
  "{" ++ quoted "sections" ++ ": [], " ++ quoted "full_summary" ++ ": null}".

Definition json_more : list (string * pyval) :=
  [ (reply_two_sections,
     PyDict [ ("sections", PyList (map PyDict two_sections));
              ("full_summary", PyStr "s") ]);
    (reply_key_list, PyList [PyStr "sections"; PyStr "full_summary"]);
    (reply_own_tokens, PyDict own_tokens);
    (reply_null_summary,
     PyDict [ ("sections", PyList []); ("full_summary", PyNone) ]);
    (Samples.reply_with "first part", Samples.reply_value "first part");
    (Samples.reply_with "s", Samples.reply_value "s") ].

Definition json_loads_more (text : string) : result pyval :=
  match Samples.excerpt_lookup text json_more with
  | Some v => Ok v
  | None =>
      Raise (Exn JSONDecodeError "Expecting value: line 1 column 1 (char 0)")
  end.

End MoreSamples.

(** * Properties *)

Import Models Services.

(** ** Token estimator *)

(** C8. [estimate_tokens] returns the character count integer-divided by
    4, which is never negative, and a text at least as long as another is
    estimated at least as high; being a function of its argument alone, it
    is pure and deterministic. *)
Theorem estimate_tokens_monotone :
  forall s t : string,
    (String.length s <= String.length t)%nat ->
    Utils.estimate_tokens s = Z.of_nat (String.length s) / 4 /\
    0 <= Utils.estimate_tokens s /\
    Utils.estimate_tokens s <= Utils.estimate_tokens t.
Proof.
  intros s t Hlen. unfold Utils.estimate_tokens, len.
  split; [reflexivity|]. split.
  - apply Z.div_pos; lia.
  - apply Z.div_le_mono; lia.
Qed.

Lemma estimate_tokens_monotone_witness :
  Utils.estimate_tokens "abcdefghi" = Z.of_nat 9 / 4 /\
  0 <= Utils.estimate_tokens "abcdefghi" /\
  Utils.estimate_tokens "abcdefghi" <= Utils.estimate_tokens "abcdefghijklm".
Proof.
  apply (estimate_tokens_monotone "abcdefghi" "abcdefghijklm").
  simpl. lia.
Defined.

(** ** Job transitions *)







(** C10. [mark_completed] always sets the status to completed and stamps
    [completed_at]; an argument that is falsy ([None] or empty model name,
    [None] or zero tokens, [None] or zero duration) leaves its field as it
    was.  In particular a run of [generate_summary] whose stages have
    counted 0 tokens leaves the job's [tokens_used] as it found it, and
    when the two saves of the job are accepted it returns the summary with
    the job completed. *)
Theorem mark_completed_skips_falsy_metadata :
  forall (now : Z) (m : option string) (t : option Z) (p : option Q)
         (job : SummaryJob),
    let job' := mark_completed now m t p job in
    status job' = completed /\
    completed_at job' = Some now /\
    (truthy_str m = false -> model_used job' = model_used job) /\
    (truthy_int t = false -> tokens_used job' = tokens_used job) /\
    (truthy_float p = false -> processing_time job' = processing_time job) /\
    (forall json_loads split_text llm db_reject save_reject model_name
            time_start time_end now_failed summary w w',
        generate_body json_loads split_text llm db_reject
          (mark_processing job) w = (Ok (summary, PyInt 0), w') ->
        let '(r, done, _, _) :=
          generate_summary json_loads split_text llm db_reject save_reject
            model_name time_start time_end now now_failed job w in
        tokens_used done = tokens_used job /\
        (save_reject w (processing_write job) = None ->
         save_reject w'
           (SaveAll (mark_completed now (Some model_name) (Some 0)
                       (Some (time_end - time_start)%Q)
                       (mark_processing job))) = None ->
         r = Ok summary /\ status done = completed)).
Proof.
  intros now m t p job job'. subst job'. simpl.
  split; [reflexivity|]. split; [reflexivity|].
  split; [intros ->; reflexivity|].
  split; [intros ->; reflexivity|].
  split; [intros ->; reflexivity|].
  intros json_loads split_text llm db_reject save_reject model_name
    time_start time_end now_failed summary w w' Hbody.
  unfold generate_summary, try_block, except_exception, processing_write.
  rewrite Hbody. cbn [tokens_argument].
  destruct (save_reject w
              (SaveFields ["status"; "updated_at"] (mark_processing job)))
    as [e | ].
  - destruct (is_exception e);
      [destruct (save_reject w _) as [e' | ]|];
      (split; [reflexivity|intros H; discriminate H]).
  - destruct (save_reject w' _) as [e | ].
    + destruct (is_exception e);
        [destruct (save_reject w' _) as [e' | ]|];
        (split; [reflexivity|intros _ H; discriminate H]).
    + split; [reflexivity|]. intros _ _. split; reflexivity.
Qed.

Lemma mark_completed_skips_falsy_metadata_witness :
  let job' := mark_completed 1700000002 (Some "") (Some 0) None
                Samples.finished_job in
  model_used job' = Some "gpt-4" /\
  tokens_used job' = Some 1000 /\
  processing_time job' = Some (11 # 2)%Q /\
  completed_at job' = Some 1700000002 /\
  (let '(r, done, _, _) :=
     generate_summary Samples.json_loads_excerpt text_splitter
       (Samples.llm_constant (Samples.reply_with "s") 0) Samples.db_keys
       Samples.save_open "gpt-4" 1%Q 3%Q 1700000002 1700000003
       Samples.sample_job empty_world in
   is_ok r = true /\ status done = completed /\ tokens_used done = None).
Proof.
  pose proof (mark_completed_skips_falsy_metadata 1700000002 (Some "")
                (Some 0) None Samples.finished_job) as H.
  cbv zeta in H.
  destruct H as (_ & Hat & Hm & Ht & Hp & _).
  cbv zeta.
  split; [exact (Hm eq_refl)|]. split; [exact (Ht eq_refl)|].
  split; [exact (Hp eq_refl)|]. split; [exact Hat|].
  pose proof (mark_completed_skips_falsy_metadata 1700000002 None None None
                Samples.sample_job) as H.
  cbv zeta in H.
  destruct H as (_ & _ & _ & _ & _ & Hrun).
  pose (body := generate_body Samples.json_loads_excerpt text_splitter
                  (Samples.llm_constant (Samples.reply_with "s") 0)
                  Samples.db_keys (mark_processing Samples.sample_job)
                  empty_world).
  assert (Hbody : generate_body Samples.json_loads_excerpt text_splitter
                    (Samples.llm_constant (Samples.reply_with "s") 0)
                    Samples.db_keys (mark_processing Samples.sample_job)
                    empty_world
                  = (Ok (summary_row Samples.sample_job (PyStr "s"), PyInt 0),
                     snd body))
    by (vm_compute; reflexivity).
  specialize (Hrun Samples.json_loads_excerpt text_splitter
                (Samples.llm_constant (Samples.reply_with "s") 0)
                Samples.db_keys Samples.save_open "gpt-4" 1%Q 3%Q 1700000003
                _ _ _ Hbody).
  revert Hrun.
  generalize (generate_summary Samples.json_loads_excerpt text_splitter
                (Samples.llm_constant (Samples.reply_with "s") 0)
                Samples.db_keys Samples.save_open "gpt-4" 1%Q 3%Q 1700000002
                1700000003 Samples.sample_job empty_world).
  intros [[[r done] saved] w''] (Ht' & Hdone).
  destruct (Hdone eq_refl eq_refl) as (Hr & Hs).
  rewrite Hr. exact (conj eq_refl (conj Hs Ht')).
Defined.

(** ** Response parser *)

(** C1 is contradicted by the code.  The fallback of
    [_parse_llm_response] reads [job.max_length], but [job] is neither a
    parameter nor a local of that method nor a name of the module: for
    every response, profile and list of document ids the fallback raises
    [NameError] and returns no summary. *)
Theorem parse_fallback_raises :
  forall (response : string) (stakeholder_config : StakeholderConfig)
         (document_ids : list string),
    parse_fallback response stakeholder_config document_ids
    = Raise (Exn NameError "name 'job' is not defined").
Proof. intros. reflexivity. Qed.

Lemma parse_accepts_dict :
  forall json_loads response stakeholder_config document_ids d,
    json_loads response = Ok (PyDict d) ->
    dict_has "sections" d = true ->
    dict_has "full_summary" d = true ->
    _parse_llm_response json_loads response stakeholder_config document_ids
    = Ok (PyDict d).
Proof.
  intros json_loads response cfg ids d Hload Hs Hf.
  unfold _parse_llm_response. rewrite Hload. simpl.
  rewrite Hs, Hf. reflexivity.
Qed.

(** C6, first stage as claimed, second stage as the code runs it.  A
    response that decodes to a dictionary holding both keys is returned
    unchanged.  A response that fails to decode, or decodes to a dictionary
    lacking one of the keys, reaches the fallback, which raises [NameError]
    instead of returning the placeholder sections.  A response that decodes
    to [null], a boolean or a number does not reach the fallback either:
    the membership test raises [TypeError]. *)
Theorem parse_llm_response_stages :
  forall (json_loads : string -> result pyval) (response : string)
         (stakeholder_config : StakeholderConfig) (document_ids : list string),
    (forall d,
        json_loads response = Ok (PyDict d) ->
        dict_has "sections" d = true ->
        dict_has "full_summary" d = true ->
        _parse_llm_response json_loads response stakeholder_config document_ids
        = Ok (PyDict d)) /\
    (forall msg,
        json_loads response = Raise (Exn JSONDecodeError msg) ->
        _parse_llm_response json_loads response stakeholder_config document_ids
        = Raise (Exn NameError "name 'job' is not defined")) /\
    (forall d,
        json_loads response = Ok (PyDict d) ->
        dict_has "sections" d && dict_has "full_summary" d = false ->
        _parse_llm_response json_loads response stakeholder_config document_ids
        = Raise (Exn NameError "name 'job' is not defined")) /\
    (forall v,
        json_loads response = Ok v ->
        is_scalar v = true ->
        exists msg,
          _parse_llm_response json_loads response stakeholder_config
            document_ids
          = Raise (Exn TypeError msg)).
Proof.
  intros json_loads response cfg ids. split; [|split; [|split]].
  - intros d. apply parse_accepts_dict.
  - intros msg Hload. unfold _parse_llm_response. rewrite Hload. reflexivity.
  - intros d Hload Hkeys. unfold _parse_llm_response. rewrite Hload. simpl.
    destruct (dict_has "sections" d); simpl in Hkeys.
    + rewrite Hkeys. reflexivity.
    + reflexivity.
  - intros v Hload Hscalar. unfold _parse_llm_response. rewrite Hload.
    destruct v; try discriminate Hscalar; eexists; reflexivity.
Qed.

Lemma parse_llm_response_stages_witness :
  _parse_llm_response Samples.json_loads_excerpt (Samples.reply_with "s")
    (prompts_get "finance" executive_profile) ["doc1"; "doc2"; "doc3"]
  = Ok (Samples.reply_value "s") /\
  _parse_llm_response Samples.json_loads_excerpt "The budget is on track."
    (prompts_get "finance" executive_profile) ["doc1"; "doc2"; "doc3"]
  = Raise (Exn NameError "name 'job' is not defined") /\
  _parse_llm_response Samples.json_loads_excerpt Samples.reply_no_summary
    (prompts_get "finance" executive_profile) ["doc1"; "doc2"; "doc3"]
  = Raise (Exn NameError "name 'job' is not defined") /\
  (exists msg,
      _parse_llm_response Samples.json_loads_excerpt "42"
        (prompts_get "finance" executive_profile) ["doc1"; "doc2"; "doc3"]
      = Raise (Exn TypeError msg)).
Proof.
  split; [|split; [|split]].
  - apply (proj1 (parse_llm_response_stages Samples.json_loads_excerpt
                    (Samples.reply_with "s")
                    (prompts_get "finance" executive_profile)
                    ["doc1"; "doc2"; "doc3"])); reflexivity.
  - apply (proj1 (proj2 (parse_llm_response_stages Samples.json_loads_excerpt
                           "The budget is on track."
                           (prompts_get "finance" executive_profile)
                           ["doc1"; "doc2"; "doc3"]))
             "Expecting value: line 1 column 1 (char 0)").
    reflexivity.
  - apply (proj1 (proj2 (proj2
             (parse_llm_response_stages Samples.json_loads_excerpt
                Samples.reply_no_summary
                (prompts_get "finance" executive_profile)
                ["doc1"; "doc2"; "doc3"])))
             [("sections", PyList [])]); reflexivity.
  - apply (proj2 (proj2 (proj2
             (parse_llm_response_stages Samples.json_loads_excerpt
                "42"
                (prompts_get "finance" executive_profile)
                ["doc1"; "doc2"; "doc3"])))
             (PyInt 42)); reflexivity.
Defined.

(** ** Text chunker *)

Lemma split_fits :
  forall (text : string) (target_chunk_size overlap : nat),
    (String.length text <= target_chunk_size)%nat ->
    Chunker.split text target_chunk_size overlap = [text].
Proof.
  intros text size overlap Hfit. unfold Chunker.split.
  assert (Hfuel : forall fuel,
             Chunker.split_fuel fuel text size overlap = [text]).
  { intros [ | fuel ]; simpl.
    - reflexivity.
    - apply Nat.leb_le in Hfit. rewrite Hfit. reflexivity. }
  apply Hfuel.
Qed.

(** C7. A text of at most one chunk window, 4000 characters for the
    configured splitter, comes back as exactly one chunk, the text
    itself. *)
Theorem text_splitter_short_input :
  forall text : string,
    (String.length text <= 4000)%nat ->
    text_splitter text = [text].
Proof.
  intros text Hfit. unfold text_splitter. now apply split_fits.
Qed.

Lemma text_splitter_short_input_witness :
  text_splitter "--- Document doc1 --- The budget is on track."
  = ["--- Document doc1 --- The budget is on track."].
Proof.
  apply (text_splitter_short_input
           "--- Document doc1 --- The budget is on track.").
  simpl. lia.
Defined.

(** ** Dictionaries *)

Lemma dict_get_set_same :
  forall k v d, dict_get k (dict_set k v d) = Some v.
Proof.
  intros k v d. induction d as [ | [k' v'] d IH ]; simpl.
  - now rewrite String.eqb_refl.
  - destruct (String.eqb k k') eqn:E; simpl; rewrite E; [reflexivity|exact IH].
Qed.

Lemma dict_get_set_other :
  forall k k' v d, k <> k' -> dict_get k (dict_set k' v d) = dict_get k d.
Proof.
  intros k k' v d Hne. induction d as [ | [k0 v0] d IH ]; simpl.
  - apply String.eqb_neq in Hne. now rewrite Hne.
  - destruct (String.eqb k' k0) eqn:E; simpl.
    + apply String.eqb_eq in E. subst k0.
      apply String.eqb_neq in Hne. now rewrite Hne.
    + destruct (String.eqb k k0); [reflexivity|exact IH].
Qed.

Lemma dict_set_set :
  forall k v v' d, dict_set k v' (dict_set k v d) = dict_set k v' d.
Proof.
  intros k v v' d. induction d as [ | [k0 v0] d IH ]; simpl.
  - now rewrite String.eqb_refl.
  - destruct (String.eqb k k0) eqn:E; simpl; rewrite E; [reflexivity|].
    now rewrite IH.
Qed.

Lemma str_items_strings :
  forall l i, str_items i (map PyStr l) = Ok l.
Proof.
  induction l as [ | s l IH ]; intros i; simpl.
  - reflexivity.
  - now rewrite IH.
Qed.

(** ** Synthesizer runs on well-formed replies *)

Section SynthesizerRuns.

Variable json_loads : string -> result pyval.
Variable llm : nat -> prompt -> result (string * Z).
Variable job : SummaryJob.
Variable cfg : StakeholderConfig.

Lemma log_calls_app :
  forall ps qs w, log_calls qs (log_calls ps w) = log_calls (ps ++ qs) w.
Proof.
  intros ps qs w. unfold log_calls. simpl. now rewrite app_assoc.
Qed.

Lemma single_run :
  forall content d t w,
    good_reply json_loads llm (List.length (llm_calls w))
      (build_prompt job content cfg) d t ->
    _single_document_summary json_loads llm job content cfg w
    = (Ok (dict_set "tokens_used" (PyInt t) d),
       log_calls [build_prompt job content cfg] w).
Proof.
  intros content d t w (response & Hllm & Hload & Hs & Hf).
  unfold _single_document_summary, bind, chain_run, lift.
  rewrite Hllm.
  rewrite (parse_accepts_dict _ _ _ _ _ Hload Hs Hf).
  reflexivity.
Qed.

Lemma map_chunks_run :
  forall chunks answers k,
    map_answers json_loads llm job cfg k chunks answers ->
    forall w chunk_summaries total_tokens,
      k = List.length (llm_calls w) ->
      map_chunks json_loads llm job cfg chunks chunk_summaries total_tokens w
      = (Ok ((chunk_summaries ++ map (fun a => PyStr (fst a)) answers)%list,
             total_tokens + sum_tokens answers),
         log_calls (map (fun c => build_prompt job c cfg) chunks) w).
Proof.
  intros chunks answers k H.
  induction H as [ k | k chunk chunks d s t answers Hreply Hfull _ IH ];
    intros w acc total Hk.
  - simpl. unfold ret, log_calls. rewrite !app_nil_r, Z.add_0_r.
    now destruct w.
  - subst k. simpl map_chunks. unfold bind at 1.
    rewrite (single_run _ _ _ _ Hreply).
    unfold bind at 1, lift at 1. unfold py_getitem.
    rewrite dict_get_set_other by discriminate. rewrite Hfull.
    unfold bind at 1, lift at 1, dict_get_default.
    rewrite dict_get_set_same. unfold int_operand.
    rewrite IH.
    + rewrite log_calls_app, <- app_assoc. simpl.
      unfold sum_tokens. simpl. now rewrite Z.add_assoc.
    + unfold log_calls. simpl. rewrite length_app. simpl. lia.
Qed.

Lemma multi_run :
  forall chunks answers d t w,
    map_answers json_loads llm job cfg (List.length (llm_calls w)) chunks answers ->
    good_reply json_loads llm (List.length (llm_calls w) + List.length chunks)
      (build_prompt job (join (newline ++ newline) (map fst answers)) cfg) d t ->
    _multi_document_synthesis json_loads llm job chunks cfg w
    = (Ok (dict_set "tokens_used" (PyInt (sum_tokens answers + t)) d),
       log_calls
         (map (fun c => build_prompt job c cfg) chunks
            ++ [build_prompt job (join (newline ++ newline) (map fst answers)) cfg])%list
         w).
Proof.
  intros chunks answers d t w Hmap Hreduce.
  unfold _multi_document_synthesis. unfold bind at 1.
  rewrite (map_chunks_run _ _ _ Hmap w [] 0 eq_refl). simpl app.
  unfold bind at 1, lift at 1, py_join.
  rewrite <- (map_map fst PyStr), str_items_strings.
  unfold bind at 1.
  rewrite (single_run (join (newline ++ newline) (map fst answers)) d t).
  - unfold bind at 1, lift at 1, dict_get_default.
    rewrite dict_get_set_same. unfold int_operand, ret.
    rewrite dict_set_set, log_calls_app. reflexivity.
  - unfold log_calls. simpl llm_calls.
    rewrite length_app, length_map. exact Hreduce.
Qed.

End SynthesizerRuns.

Lemma executive_entry : prompts_getitem "executive" = Ok executive_profile.
Proof. reflexivity. Qed.

Lemma generate_unfold :
  forall json_loads split_text llm job contexts w,
    _generate_with_langchain json_loads split_text llm job contexts w
    = bind
        (if (1 <? List.length (split_text (_combine_document_texts contexts)))%nat
         then _multi_document_synthesis json_loads llm job
                (split_text (_combine_document_texts contexts))
                (prompts_get (stakeholder_role job) executive_profile)
         else _single_document_summary json_loads llm job
                (_combine_document_texts contexts)
                (prompts_get (stakeholder_role job) executive_profile))
        (fun summary_data =>
           ret (summary_data,
                dict_get_default "tokens_used" (PyInt 0) summary_data))
        w.
Proof.
  intros. unfold _generate_with_langchain. unfold bind at 1, lift at 1.
  rewrite executive_entry. reflexivity.
Qed.

(** X20. Provided every model invocation returns and
    its text decodes to a dictionary holding both keys (and, in the map
    phase, a text under ['full_summary']): with one chunk the synthesizer
    issues exactly one invocation, on the whole combined text, and reports
    that call's usage; with N > 1 chunks it issues exactly N + 1
    invocations, one per chunk in chunk order and then one on the chunk
    summaries joined by blank lines, and reports the sum of the N + 1
    usages. *)
Theorem synthesis_invocations :
  forall (json_loads : string -> result pyval)
         (split_text : string -> list string)
         (llm : nat -> prompt -> result (string * Z))
         (job : SummaryJob) (contexts : list DocumentContext) (w : world),
    let cfg := prompts_get (stakeholder_role job) executive_profile in
    let combined_text := _combine_document_texts contexts in
    let k := List.length (llm_calls w) in
    (forall chunk d t,
        split_text combined_text = [chunk] ->
        good_reply json_loads llm k (build_prompt job combined_text cfg) d t ->
        _generate_with_langchain json_loads split_text llm job contexts w
        = (Ok (dict_set "tokens_used" (PyInt t) d, PyInt t),
           log_calls [build_prompt job combined_text cfg] w)) /\
    (forall chunks answers d t,
        split_text combined_text = chunks ->
        (1 < List.length chunks)%nat ->
        map_answers json_loads llm job cfg k chunks answers ->
        let reduce_input := join (newline ++ newline) (map fst answers) in
        good_reply json_loads llm (k + List.length chunks)
          (build_prompt job reduce_input cfg) d t ->
        let total := sum_tokens answers + t in
        let issued :=
          (map (fun c => build_prompt job c cfg) chunks
             ++ [build_prompt job reduce_input cfg])%list in
        _generate_with_langchain json_loads split_text llm job contexts w
        = (Ok (dict_set "tokens_used" (PyInt total) d, PyInt total),
           log_calls issued w) /\
        List.length issued = (List.length chunks + 1)%nat).
Proof.
  intros json_loads split_text llm job contexts w cfg combined_text k.
  split.
  - intros chunk d t Hsplit Hreply.
    rewrite generate_unfold. fold combined_text. fold cfg.
    rewrite Hsplit. change (1 <? List.length [chunk])%nat with false.
    unfold bind. rewrite (single_run _ _ _ _ _ _ _ _ Hreply).
    unfold ret, dict_get_default. now rewrite dict_get_set_same.
  - intros chunks answers d t Hsplit Hmany Hmap reduce_input Hreduce total issued.
    split.
    + rewrite generate_unfold. fold combined_text. fold cfg.
      rewrite Hsplit. apply Nat.ltb_lt in Hmany. rewrite Hmany.
      unfold bind. rewrite (multi_run _ _ _ _ _ _ _ _ _ Hmap Hreduce).
      unfold ret, dict_get_default. now rewrite dict_get_set_same.
    + unfold issued. rewrite length_app, length_map. reflexivity.
Qed.

Lemma synthesis_invocations_witness :
  _generate_with_langchain Samples.json_loads_excerpt text_splitter
    (Samples.llm_constant (Samples.reply_with "s") 42)
    Samples.sample_job [Samples.short_context] empty_world
  = (Ok (dict_set "tokens_used" (PyInt 42)
           [("sections", PyList []); ("full_summary", PyStr "s")],
         PyInt 42),
     log_calls
       [build_prompt Samples.sample_job
          (_combine_document_texts [Samples.short_context])
          (prompts_get "finance" executive_profile)]
       empty_world)
  /\
  (let chunks :=
     MoreSamples.two_windows
       (_combine_document_texts [Samples.long_context]) in
   let answers := [("first part", 10); ("second part", 20)] in
   let issued :=
     (map (fun c => build_prompt Samples.sample_job c
                      (prompts_get "finance" executive_profile)) chunks
        ++ [build_prompt Samples.sample_job
              (join (newline ++ newline) (map fst answers))
              (prompts_get "finance" executive_profile)])%list in
   _generate_with_langchain Samples.json_loads_excerpt
     MoreSamples.two_windows
     (Samples.llm_script
        [ (Samples.reply_with "first part", 10);
          (Samples.reply_with "second part", 20);
          (Samples.reply_with "s", 5) ])
     Samples.sample_job [Samples.long_context] empty_world
   = (Ok (dict_set "tokens_used" (PyInt 35)
            [("sections", PyList []); ("full_summary", PyStr "s")],
          PyInt 35),
      log_calls issued empty_world)
   /\ List.length issued = 3%nat).
Proof.
  split.
  - apply (proj1 (synthesis_invocations Samples.json_loads_excerpt
                    text_splitter
                    (Samples.llm_constant (Samples.reply_with "s") 42)
                    Samples.sample_job [Samples.short_context] empty_world)
             (_combine_document_texts [Samples.short_context])).
    + vm_compute. reflexivity.
    + exists (Samples.reply_with "s"). repeat split; vm_compute; reflexivity.
  - cbv zeta.
    pose proof (proj2 (synthesis_invocations Samples.json_loads_excerpt
                    MoreSamples.two_windows
                    (Samples.llm_script
                       [ (Samples.reply_with "first part", 10);
                         (Samples.reply_with "second part", 20);
                         (Samples.reply_with "s", 5) ])
                    Samples.sample_job [Samples.long_context] empty_world)
             (MoreSamples.two_windows
                (_combine_document_texts [Samples.long_context]))
             [("first part", 10); ("second part", 20)]
             [("sections", PyList []); ("full_summary", PyStr "s")] 5
             eq_refl) as H.
    cbv zeta in H.
    assert (Hn : List.length
                   (MoreSamples.two_windows
                      (_combine_document_texts [Samples.long_context]))
                 = 2%nat) by (vm_compute; reflexivity).
    rewrite Hn in H.
    destruct (MoreSamples.two_windows
                (_combine_document_texts [Samples.long_context]))
      as [ | c1 [ | c2 [ | c3 rest ] ] ] eqn:E; try discriminate Hn.
    apply H.
    + simpl. lia.
    + apply map_answers_cons with (d := [("sections", PyList []); ("full_summary", PyStr "first part")]).
      * exists (Samples.reply_with "first part"). repeat split; vm_compute; reflexivity.
      * reflexivity.
      * apply map_answers_cons with (d := [("sections", PyList []); ("full_summary", PyStr "second part")]).
        -- exists (Samples.reply_with "second part"). repeat split; vm_compute; reflexivity.
        -- reflexivity.
        -- constructor.
    + exists (Samples.reply_with "s"). repeat split; vm_compute; reflexivity.
Defined.

Lemma parse_undecodable :
  forall json_loads response stakeholder_config document_ids msg,
    json_loads response = Raise (Exn JSONDecodeError msg) ->
    _parse_llm_response json_loads response stakeholder_config document_ids
    = Raise (Exn NameError "name 'job' is not defined").
Proof.
  intros json_loads response cfg ids msg Hload.
  unfold _parse_llm_response. rewrite Hload. reflexivity.
Qed.

Lemma single_parse_raises :
  forall json_loads llm job content cfg w response t e,
    llm (List.length (llm_calls w)) (build_prompt job content cfg)
    = Ok (response, t) ->
    _parse_llm_response json_loads response cfg (document_ids job) = Raise e ->
    _single_document_summary json_loads llm job content cfg w
    = (Raise e, log_calls [build_prompt job content cfg] w).
Proof.
  intros json_loads llm job content cfg w response t e Hllm Hparse.
  unfold _single_document_summary.
  unfold bind at 1, chain_run at 1. rewrite Hllm.
  unfold bind at 1, lift at 1. rewrite Hparse. reflexivity.
Qed.

(** C2 is contradicted by the code, by the defect of C1.  Let the model
    answer the first invocation normally with a text that is not JSON.
    The parser's fallback raises [NameError]: with one chunk the
    synthesizer has issued its one invocation and reports no token count;
    with N > 1 chunks it stops after the invocation on the first chunk,
    having issued one invocation and not N + 1, and reports no sum. *)
Theorem prose_reply_stops_synthesis :
  forall (json_loads : string -> result pyval)
         (split_text : string -> list string)
         (llm : nat -> prompt -> result (string * Z))
         (job : SummaryJob) (contexts : list DocumentContext) (w : world)
         (response : string) (t : Z) (msg : string),
    let cfg := prompts_get (stakeholder_role job) executive_profile in
    let combined_text := _combine_document_texts contexts in
    let k := List.length (llm_calls w) in
    json_loads response = Raise (Exn JSONDecodeError msg) ->
    (forall chunk,
        split_text combined_text = [chunk] ->
        llm k (build_prompt job combined_text cfg) = Ok (response, t) ->
        _generate_with_langchain json_loads split_text llm job contexts w
        = (Raise (Exn NameError "name 'job' is not defined"),
           log_calls [build_prompt job combined_text cfg] w)) /\
    (forall first rest,
        split_text combined_text = first :: rest ->
        rest <> [] ->
        llm k (build_prompt job first cfg) = Ok (response, t) ->
        _generate_with_langchain json_loads split_text llm job contexts w
        = (Raise (Exn NameError "name 'job' is not defined"),
           log_calls [build_prompt job first cfg] w) /\
        (List.length (llm_calls (log_calls [build_prompt job first cfg] w))
         = k + 1)%nat /\
        (1 < List.length (first :: rest))%nat).
Proof.
  intros json_loads split_text llm job contexts w response t msg
    cfg combined_text k Hload.
  pose proof (parse_undecodable json_loads response cfg (document_ids job)
                msg Hload) as Hparse.
  split.
  - intros chunk Hsplit Hllm.
    rewrite generate_unfold. fold combined_text. fold cfg.
    rewrite Hsplit. change (1 <? List.length [chunk])%nat with false.
    unfold bind.
    now rewrite (single_parse_raises _ _ _ _ _ _ _ _ _ Hllm Hparse).
  - intros first rest Hsplit Hrest Hllm.
    assert (Hmany : (1 < List.length (first :: rest))%nat)
      by (destruct rest; [contradiction|simpl; lia]).
    split; [|split; [|exact Hmany]].
    + rewrite generate_unfold. fold combined_text. fold cfg.
      rewrite Hsplit. apply Nat.ltb_lt in Hmany. rewrite Hmany.
      unfold bind at 1. unfold _multi_document_synthesis.
      unfold bind at 1. cbn [map_chunks].
      unfold bind at 1.
      now rewrite (single_parse_raises _ _ _ _ _ _ _ _ _ Hllm Hparse).
    + unfold log_calls. cbn [llm_calls]. rewrite length_app. reflexivity.
Qed.

Lemma prose_reply_stops_synthesis_witness :
  (let '(r, w') :=
     _generate_with_langchain Samples.json_loads_excerpt
       MoreSamples.two_windows
       (Samples.llm_constant "The budget is on track." 42)
       Samples.sample_job [Samples.short_context] empty_world in
   r = Raise (Exn NameError "name 'job' is not defined") /\
   List.length (llm_calls w') = 1%nat) /\
  (let '(r, w') :=
     _generate_with_langchain Samples.json_loads_excerpt
       MoreSamples.two_windows
       (Samples.llm_constant "The budget is on track." 42)
       Samples.sample_job [Samples.long_context] empty_world in
   List.length
     (MoreSamples.two_windows
        (_combine_document_texts [Samples.long_context])) = 2%nat /\
   r = Raise (Exn NameError "name 'job' is not defined") /\
   List.length (llm_calls w') = 1%nat).
Proof.
  pose proof (prose_reply_stops_synthesis Samples.json_loads_excerpt
                MoreSamples.two_windows
                (Samples.llm_constant "The budget is on track." 42)
                Samples.sample_job [Samples.short_context] empty_world
                "The budget is on track." 42
                "Expecting value: line 1 column 1 (char 0)") as Hone.
  pose proof (prose_reply_stops_synthesis Samples.json_loads_excerpt
                MoreSamples.two_windows
                (Samples.llm_constant "The budget is on track." 42)
                Samples.sample_job [Samples.long_context] empty_world
                "The budget is on track." 42
                "Expecting value: line 1 column 1 (char 0)") as Hmany.
  cbv zeta in Hone, Hmany.
  split.
  - destruct (Hone eq_refl) as [H _].
    rewrite (H _ eq_refl eq_refl). split; reflexivity.
  - destruct (Hmany eq_refl) as [_ H].
    destruct (H _ _ eq_refl ltac:(discriminate) eq_refl) as (Hrun & Hcalls & _).
    rewrite Hrun. split; [reflexivity|]. split; [reflexivity|exact Hcalls].
Defined.

(** C5, as the code has it.  The reduce phase is a single pass: when the
    chunk summaries joined by blank lines exceed the 4000-character window,
    [_multi_document_synthesis] still sends them whole in one invocation
    and returns its parsed reply; the input is not chunked again, nothing
    recurses, and no depth limit is checked or reported. *)
Theorem reduce_is_single_pass :
  forall (json_loads : string -> result pyval)
         (llm : nat -> prompt -> result (string * Z))
         (job : SummaryJob) (cfg : StakeholderConfig)
         (chunks : list string) (answers : list (string * Z))
         (d : pydict) (t : Z) (w : world),
    let k := List.length (llm_calls w) in
    let reduce_input := join (newline ++ newline) (map fst answers) in
    map_answers json_loads llm job cfg k chunks answers ->
    (4000 < String.length reduce_input)%nat ->
    good_reply json_loads llm (k + List.length chunks)
      (build_prompt job reduce_input cfg) d t ->
    _multi_document_synthesis json_loads llm job chunks cfg w
    = (Ok (dict_set "tokens_used" (PyInt (sum_tokens answers + t)) d),
       log_calls
         (map (fun c => build_prompt job c cfg) chunks
            ++ [build_prompt job reduce_input cfg])%list
         w).
Proof.
  intros json_loads llm job cfg chunks answers d t w k reduce_input
    Hmap _ Hreduce.
  now apply multi_run.
Qed.

Lemma reduce_is_single_pass_witness :
  let cfg := prompts_get "finance" executive_profile in
  let reduce_input :=
    join (newline ++ newline) [Samples.letters 3000; Samples.letters 3000] in
  _multi_document_synthesis Samples.json_loads_excerpt
    (Samples.llm_script
       [ (Samples.reply_with (Samples.letters 3000), 10);
         (Samples.reply_with (Samples.letters 3000), 10);
         (Samples.reply_with "s", 5) ])
    Samples.sample_job ["first chunk"; "second chunk"] cfg empty_world
  = (Ok (dict_set "tokens_used" (PyInt 25)
           [("sections", PyList []); ("full_summary", PyStr "s")]),
     log_calls
       [ build_prompt Samples.sample_job "first chunk" cfg;
         build_prompt Samples.sample_job "second chunk" cfg;
         build_prompt Samples.sample_job reduce_input cfg ]
       empty_world).
Proof.
  cbv zeta.
  apply (reduce_is_single_pass Samples.json_loads_excerpt
           (Samples.llm_script
              [ (Samples.reply_with (Samples.letters 3000), 10);
                (Samples.reply_with (Samples.letters 3000), 10);
                (Samples.reply_with "s", 5) ])
           Samples.sample_job (prompts_get "finance" executive_profile)
           ["first chunk"; "second chunk"]
           [ (Samples.letters 3000, 10); (Samples.letters 3000, 10) ]
           [("sections", PyList []); ("full_summary", PyStr "s")] 5
           empty_world).
  - apply map_answers_cons
      with (d := [("sections", PyList []);
                  ("full_summary", PyStr (Samples.letters 3000))]).
    + exists (Samples.reply_with (Samples.letters 3000)).
      repeat split; vm_compute; reflexivity.
    + reflexivity.
    + apply map_answers_cons
        with (d := [("sections", PyList []);
                    ("full_summary", PyStr (Samples.letters 3000))]).
      * exists (Samples.reply_with (Samples.letters 3000)).
        repeat split; vm_compute; reflexivity.
      * reflexivity.
      * constructor.
  - apply Nat.ltb_lt. vm_compute. reflexivity.
  - exists (Samples.reply_with "s"). repeat split; vm_compute; reflexivity.
Defined.

(** C5 fails as stated: with a model that summarises every prompt in 3000
    characters, the two chunk summaries make a reduce input of 6002
    characters, which the splitter would cut in two; the synthesizer sends
    it whole as its third and last invocation and returns normally, with no
    further pass and no error. *)
Lemma oversized_reduce_input_is_sent_whole :
  let reduce_input :=
    join (newline ++ newline) [Samples.letters 3000; Samples.letters 3000] in
  let '(r, w') :=
    _generate_with_langchain Samples.json_loads_excerpt text_splitter
      (Samples.llm_constant (Samples.reply_with (Samples.letters 3000)) 10)
      Samples.sample_job [Samples.long_context] empty_world in
  len reduce_input = 6002 /\
  List.length (text_splitter reduce_input) = 2%nat /\
  is_ok r = true /\
  List.length (llm_calls w') = 3%nat /\
  option_map p_content (nth_error (llm_calls w') 2) = Some reduce_input.
Proof.
  vm_compute. repeat split.
Qed.

(** ** What a run leaves untouched *)

Section Preservation.

Variable R : world -> world -> Prop.
Hypothesis R_refl : forall w, R w w.
Hypothesis R_trans : forall w1 w2 w3, R w1 w2 -> R w2 w3 -> R w1 w3.

Lemma preserves_ret : forall A (a : A), preserves R (ret a).
Proof. intros A a w r w' H. inversion H; subst. apply R_refl. Qed.

Lemma preserves_lift : forall A (r : result A), preserves R (lift r).
Proof. intros A r w r' w' H. inversion H; subst. apply R_refl. Qed.

Lemma preserves_bind :
  forall A B (m : M A) (k : A -> M B),
    preserves R m -> (forall a, preserves R (k a)) -> preserves R (bind m k).
Proof.
  intros A B m k Hm Hk w r w' H. unfold bind in H.
  destruct (m w) as [[a | e] w1] eqn:E.
  - apply R_trans with w1; [exact (Hm _ _ _ E)|exact (Hk a _ _ _ H)].
  - inversion H; subst. exact (Hm _ _ _ E).
Qed.

End Preservation.

Lemma log_calls_nil : forall w, log_calls [] w = w.
Proof. intros [c d g s]. unfold log_calls. simpl. now rewrite app_nil_r. Qed.

Lemma only_prompts_refl :
  forall job cfg w, only_prompts_of job cfg w w.
Proof.
  intros job cfg w. exists []. split; [symmetry; apply log_calls_nil|constructor].
Qed.

Lemma only_prompts_trans :
  forall job cfg w1 w2 w3,
    only_prompts_of job cfg w1 w2 -> only_prompts_of job cfg w2 w3 ->
    only_prompts_of job cfg w1 w3.
Proof.
  intros job cfg w1 w2 w3 (ps & -> & Hps) (qs & -> & Hqs).
  exists (ps ++ qs)%list. split.
  - apply log_calls_app.
  - apply Forall_app. now split.
Qed.

Lemma only_prompts_same_summaries :
  forall job cfg w w', only_prompts_of job cfg w w' -> same_summaries w w'.
Proof. intros job cfg w w' (ps & -> & _). split; reflexivity. Qed.

Section SynthesizerFrame.

Variable json_loads : string -> result pyval.
Variable llm : nat -> prompt -> result (string * Z).
Variable job : SummaryJob.
Variable cfg : StakeholderConfig.

Lemma single_frame :
  forall content,
    preserves (only_prompts_of job cfg)
      (_single_document_summary json_loads llm job content cfg).
Proof.
  intros content. unfold _single_document_summary.
  apply preserves_bind; try apply only_prompts_trans.
  - intros w r w' H. unfold chain_run in H. inversion H; subst.
    exists [build_prompt job content cfg]. split; [reflexivity|].
    constructor; [|constructor]. repeat split.
  - intros [response tokens].
    apply preserves_bind; try apply only_prompts_trans.
    + apply preserves_lift, only_prompts_refl.
    + intros a. apply preserves_lift, only_prompts_refl.
Qed.

Lemma map_chunks_frame :
  forall chunks chunk_summaries total_tokens,
    preserves (only_prompts_of job cfg)
      (map_chunks json_loads llm job cfg chunks chunk_summaries total_tokens).
Proof.
  induction chunks as [ | chunk chunks IH ]; intros acc total; simpl.
  - apply preserves_ret, only_prompts_refl.
  - apply preserves_bind; try apply only_prompts_trans.
    + apply single_frame.
    + intros chunk_summary.
      apply preserves_bind; try apply only_prompts_trans.
      * apply preserves_lift, only_prompts_refl.
      * intros full. apply preserves_bind; try apply only_prompts_trans.
        -- apply preserves_lift, only_prompts_refl.
        -- intros used. apply IH.
Qed.

Lemma multi_frame :
  forall chunks,
    preserves (only_prompts_of job cfg)
      (_multi_document_synthesis json_loads llm job chunks cfg).
Proof.
  intros chunks. unfold _multi_document_synthesis.
  apply preserves_bind; try apply only_prompts_trans.
  - apply map_chunks_frame.
  - intros [chunk_summaries total_tokens].
    apply preserves_bind; try apply only_prompts_trans.
    + apply preserves_lift, only_prompts_refl.
    + intros combined. apply preserves_bind; try apply only_prompts_trans.
      * apply single_frame.
      * intros final. apply preserves_bind; try apply only_prompts_trans.
        -- apply preserves_lift, only_prompts_refl.
        -- intros used. apply preserves_ret, only_prompts_refl.
Qed.

End SynthesizerFrame.

Lemma generate_frame :
  forall json_loads split_text llm job contexts,
    preserves
      (only_prompts_of job (prompts_get (stakeholder_role job) executive_profile))
      (_generate_with_langchain json_loads split_text llm job contexts).
Proof.
  intros json_loads split_text llm job contexts w r w' H.
  rewrite generate_unfold in H. revert w r w' H.
  apply preserves_bind; try apply only_prompts_trans.
  - destruct (1 <? _)%nat; [apply multi_frame|apply single_frame].
  - intros sd. apply preserves_ret, only_prompts_refl.
Qed.

Lemma unknown_role_lookup :
  forall role,
    ~ In role (map fst STAKEHOLDER_ROLES) ->
    prompts_lookup role STAKEHOLDER_PROMPTS = None.
Proof.
  intros role Hnot. unfold STAKEHOLDER_PROMPTS. simpl.
  repeat match goal with
         | |- context [String.eqb role ?r] =>
             destruct (String.eqb_spec role r) as [-> | _];
             [exfalso; apply Hnot; simpl; tauto|]
         end.
  reflexivity.
Qed.

(** C9. A job whose role is none of the eight is not turned away: the
    profile lookup yields the executive entry, the synthesizer runs exactly
    as it does under that entry, and every invocation it issues carries the
    executive focus and section titles together with the job's own role. *)
Theorem unknown_role_uses_executive_profile :
  forall (json_loads : string -> result pyval)
         (split_text : string -> list string)
         (llm : nat -> prompt -> result (string * Z))
         (job : SummaryJob) (contexts : list DocumentContext) (w : world),
    ~ In (stakeholder_role job) (map fst STAKEHOLDER_ROLES) ->
    let combined_text := _combine_document_texts contexts in
    let chunks := split_text combined_text in
    prompts_get (stakeholder_role job) executive_profile = executive_profile /\
    _generate_with_langchain json_loads split_text llm job contexts w
    = bind
        (if (1 <? List.length chunks)%nat
         then _multi_document_synthesis json_loads llm job chunks
                executive_profile
         else _single_document_summary json_loads llm job combined_text
                executive_profile)
        (fun summary_data =>
           ret (summary_data,
                dict_get_default "tokens_used" (PyInt 0) summary_data))
        w /\
    (forall r w',
        _generate_with_langchain json_loads split_text llm job contexts w
        = (r, w') ->
        only_prompts_of job executive_profile w w').
Proof.
  intros json_loads split_text llm job contexts w Hrole combined_text chunks.
  assert (Hcfg : prompts_get (stakeholder_role job) executive_profile
                 = executive_profile).
  { unfold prompts_get. now rewrite (unknown_role_lookup _ Hrole). }
  split; [exact Hcfg|]. split.
  - rewrite generate_unfold, Hcfg. reflexivity.
  - intros r w' Hrun. rewrite <- Hcfg.
    exact (generate_frame _ _ _ _ _ _ _ _ Hrun).
Qed.

Lemma unknown_role_uses_executive_profile_witness :
  prompts_get "auditor" executive_profile = executive_profile /\
  (let '(r, w') :=
     _generate_with_langchain Samples.json_loads_excerpt text_splitter
       (Samples.llm_constant (Samples.reply_with "s") 42)
       Samples.auditor_job [Samples.short_context] empty_world in
   is_ok r = true /\
   map p_focus (llm_calls w')
   = ["high-level status, strategic risks, financial health, and key decisions needed"] /\
   map p_sections (llm_calls w')
   = ["Executive Summary, Strategic Overview, Financial Health, Critical Actions"] /\
   map p_stakeholder_role (llm_calls w') = ["auditor"]).
Proof.
  assert (Hrole : ~ In (stakeholder_role Samples.auditor_job)
                      (map fst STAKEHOLDER_ROLES)).
  { simpl. intros H. repeat (destruct H as [H | H]; [discriminate H|]).
    exact H. }
  destruct (unknown_role_uses_executive_profile Samples.json_loads_excerpt
              text_splitter (Samples.llm_constant (Samples.reply_with "s") 42)
              Samples.auditor_job [Samples.short_context] empty_world Hrole)
    as (Hcfg & Hrun & _).
  split; [exact Hcfg|].
  rewrite Hrun. vm_compute. repeat split.
Defined.

(** ** Job lifecycle controller *)

Lemma same_summaries_refl : forall w, same_summaries w w.
Proof. intros w. split; reflexivity. Qed.

Lemma same_summaries_trans :
  forall w1 w2 w3,
    same_summaries w1 w2 -> same_summaries w2 w3 -> same_summaries w1 w3.
Proof.
  intros w1 w2 w3 [H1 H2] [H3 H4]. split; congruence.
Qed.


Lemma fetch_frame :
  forall db_reject job,
    preserves same_summaries (_fetch_document_contexts db_reject job).
Proof.
  intros db_reject job. unfold _fetch_document_contexts.
  generalize (@nil DocumentContext) as contexts.
  induction (document_ids job) as [ | doc_id rest IH ]; intros contexts; simpl.
  - apply preserves_ret, same_summaries_refl.
  - apply preserves_bind; try apply same_summaries_trans.
    + intros w r w' H. unfold objects_create in H.
      destruct (db_reject w _); inversion H; subst; split; reflexivity.
    + intros _. apply IH.
Qed.

Lemma create_sections_frame :
  forall db_reject summary items i,
    preserves same_summary_rows (create_sections db_reject summary items i).
Proof.
  intros db_reject summary items.
  assert (Htrans : forall w1 w2 w3,
             same_summary_rows w1 w2 -> same_summary_rows w2 w3 ->
             same_summary_rows w1 w3)
    by (unfold same_summary_rows; intros; congruence).
  induction items as [ | section_data rest IH ]; intros i; simpl.
  - now apply preserves_ret.
  - apply preserves_bind; try exact Htrans.
    { now apply preserves_lift. }
    intros title. apply preserves_bind; try exact Htrans.
    { now apply preserves_lift. }
    intros content. apply preserves_bind; try exact Htrans.
    + intros w r w' H. unfold objects_create in H.
      destruct (db_reject w _); inversion H; subst; reflexivity.
    + intros _. apply IH.
Qed.

Lemma sections_stage_frame :
  forall db_reject summary summary_data,
    preserves same_summary_rows
      (sections' <- lift (py_getitem (PyDict summary_data) "sections") ;;
       items <- lift (py_iter sections') ;;
       _ <- create_sections db_reject summary items 0 ;;
       ret summary).
Proof.
  intros db_reject summary summary_data.
  assert (Htrans : forall w1 w2 w3,
             same_summary_rows w1 w2 -> same_summary_rows w2 w3 ->
             same_summary_rows w1 w3)
    by (unfold same_summary_rows; intros; congruence).
  apply preserves_bind; try exact Htrans.
  { now apply preserves_lift. }
  intros sections'. apply preserves_bind; try exact Htrans.
  { now apply preserves_lift. }
  intros items. apply preserves_bind; try exact Htrans.
  - apply create_sections_frame.
  - intros _. now apply preserves_ret.
Qed.

Lemma create_keeps_summary_row :
  forall db_reject job summary_data full r w w',
    dict_get "full_summary" summary_data = Some full ->
    db_reject w (RowSummary (summary_row job full)) = None ->
    _create_summary_records db_reject job summary_data w = (r, w') ->
    generated_summaries w'
    = (generated_summaries w ++ [summary_row job full])%list.
Proof.
  intros db_reject job summary_data full r w w' Hfull Haccept Hrun.
  unfold _create_summary_records in Hrun.
  unfold bind at 1, lift at 1, py_getitem at 1 in Hrun. rewrite Hfull in Hrun.
  unfold bind at 1, objects_create at 1 in Hrun.
  fold (summary_row job full) in Hrun. rewrite Haccept in Hrun.
  apply sections_stage_frame in Hrun. rewrite Hrun. reflexivity.
Qed.

Lemma run_after_stage_raises :
  forall json_loads split_text llm db_reject save_reject model_name
         time_start time_end now now_failed job w e w',
    save_reject w (processing_write job) = None ->
    generate_body json_loads split_text llm db_reject (mark_processing job) w
    = (Raise e, w') ->
    generate_summary json_loads split_text llm db_reject save_reject
      model_name time_start time_end now now_failed job w
    = except_exception save_reject now_failed e (mark_processing job)
        [processing_write job] w'.
Proof.
  intros json_loads split_text llm db_reject save_reject model_name
    time_start time_end now now_failed job w e w' Hsave Hbody.
  unfold generate_summary, try_block.
  fold (processing_write job). rewrite Hsave, Hbody. reflexivity.
Qed.

(** C4, as the code has it.  Let [mark_processing] have saved the job.
    When the context fetch or the synthesizer (model invocation, parsing)
    raises, no summary row and no section row has been written; when record
    creation raises, nothing is undone: the summary row it had inserted
    stays in the table.  Whichever stage raised, an exception derived from
    [Exception] is caught: the job object is left failed with [str(e)] as
    its error message (empty when the exception carries no message), and
    when the save of that state is accepted it is written and the same
    exception is raised again; when that save raises, its exception is
    raised instead and the last write of the job stays the one that made
    it processing.  An exception outside [Exception] is not caught: it
    propagates, and the job stays processing with no error recorded. *)
Theorem failed_run_is_recorded :
  forall (json_loads : string -> result pyval)
         (split_text : string -> list string)
         (llm : nat -> prompt -> result (string * Z))
         (db_reject : world -> db_row -> option exn)
         (save_reject : world -> job_write -> option exn)
         (model_name : string) (time_start time_end : Q) (now now_failed : Z)
         (job : SummaryJob) (w : world) (e : exn),
    let job1 := mark_processing job in
    let failed_job := mark_failed now_failed (exn_str e) job1 in
    let body := generate_body json_loads split_text llm db_reject job1 w in
    let run :=
      generate_summary json_loads split_text llm db_reject save_reject
        model_name time_start time_end now now_failed job w in
    save_reject w (processing_write job) = None ->
    (forall w1,
        _fetch_document_contexts db_reject job1 w = (Raise e, w1) ->
        body = (Raise e, w1) /\ same_summaries w w1) /\
    (forall contexts w1 w2,
        _fetch_document_contexts db_reject job1 w = (Ok contexts, w1) ->
        _generate_with_langchain json_loads split_text llm job1 contexts w1
        = (Raise e, w2) ->
        body = (Raise e, w2) /\ same_summaries w w2) /\
    (forall contexts w1 summary_data tokens w2 w3,
        _fetch_document_contexts db_reject job1 w = (Ok contexts, w1) ->
        _generate_with_langchain json_loads split_text llm job1 contexts w1
        = (Ok (summary_data, tokens), w2) ->
        _create_summary_records db_reject job1 summary_data w2
        = (Raise e, w3) ->
        body = (Raise e, w3) /\
        (forall full,
            dict_get "full_summary" summary_data = Some full ->
            db_reject w2 (RowSummary (summary_row job1 full)) = None ->
            generated_summaries w3
            = (generated_summaries w ++ [summary_row job1 full])%list)) /\
    (forall w',
        body = (Raise e, w') ->
        (is_exception e = true ->
         save_reject w' (SaveAll failed_job) = None ->
         run = (Raise e, failed_job,
                [processing_write job; SaveAll failed_job], w') /\
         status failed_job = failed /\
         error_message failed_job = Some (exn_str e)) /\
        (is_exception e = true ->
         forall e',
           save_reject w' (SaveAll failed_job) = Some e' ->
           run = (Raise e', failed_job, [processing_write job], w')) /\
        (is_exception e = false ->
         run = (Raise e, job1, [processing_write job], w') /\
         status job1 = processing /\
         error_message job1 = error_message job)).
Proof.
  intros json_loads split_text llm db_reject save_reject model_name
    time_start time_end now now_failed job w e job1 failed_job body run Hsave.
  split; [|split; [|split]].
  - intros w1 Hfetch. split.
    + unfold body, generate_body. unfold bind at 1. now rewrite Hfetch.
    + exact (fetch_frame _ _ _ _ _ Hfetch).
  - intros contexts w1 w2 Hfetch Hgen. split.
    + unfold body, generate_body.
      unfold bind at 1. rewrite Hfetch.
      unfold bind at 1. now rewrite Hgen.
    + apply same_summaries_trans with w1.
      * exact (fetch_frame _ _ _ _ _ Hfetch).
      * apply only_prompts_same_summaries
          with (job := job1)
               (cfg := prompts_get (stakeholder_role job1) executive_profile).
        exact (generate_frame _ _ _ _ _ _ _ _ Hgen).
  - intros contexts w1 summary_data tokens w2 w3 Hfetch Hgen Hcreate. split.
    + unfold body, generate_body.
      unfold bind at 1. rewrite Hfetch.
      unfold bind at 1. rewrite Hgen.
      unfold bind at 1. now rewrite Hcreate.
    + intros full Hfull Haccept.
      rewrite (create_keeps_summary_row _ _ _ _ _ _ _ Hfull Haccept Hcreate).
      assert (Hsame : same_summaries w w2).
      { apply same_summaries_trans with w1.
        - exact (fetch_frame _ _ _ _ _ Hfetch).
        - apply only_prompts_same_summaries
            with (job := job1)
                 (cfg := prompts_get (stakeholder_role job1) executive_profile).
          exact (generate_frame _ _ _ _ _ _ _ _ Hgen). }
      destruct Hsame as [Hrows _]. now rewrite Hrows.
  - intros w' Hbody.
    unfold run.
    rewrite (run_after_stage_raises _ _ _ _ _ model_name time_start time_end
               now now_failed _ _ _ _ Hsave Hbody).
    unfold except_exception. fold job1. fold failed_job.
    split; [|split].
    + intros -> ->. repeat split.
    + intros -> e' ->. reflexivity.
    + intros ->. repeat split.
Qed.

Lemma failed_run_is_recorded_witness :
  (let '(r, job', saved, w') :=
     generate_summary Samples.json_loads_excerpt text_splitter
       Samples.llm_down MoreSamples.db_varchar Samples.save_open "gpt-4"
       1%Q 3%Q 1700000000 1700000001 MoreSamples.long_id_job empty_world in
   r = Raise (Exn (OtherException "DataError")
                "value too long for type character varying(100)") /\
   status job' = failed /\
   error_message job'
   = Some "value too long for type character varying(100)" /\
   saved = [processing_write MoreSamples.long_id_job; SaveAll job'] /\
   same_summaries empty_world w') /\
  (let '(r, job', saved, w') :=
     generate_summary Samples.json_loads_excerpt text_splitter
       Samples.llm_down Samples.db_keys Samples.save_open "gpt-4"
       1%Q 3%Q 1700000000 1700000001 Samples.sample_job empty_world in
   r = Raise (Exn (OtherException "RateLimitError") "Rate limit reached") /\
   status job' = failed /\
   error_message job' = Some "Rate limit reached" /\
   saved = [processing_write Samples.sample_job; SaveAll job'] /\
   same_summaries empty_world w') /\
  (let '(r, job', saved, w') :=
     generate_summary Samples.json_loads_excerpt text_splitter
       (Samples.llm_constant Samples.reply_no_content 42)
       Samples.db_keys Samples.save_open "gpt-4" 1%Q 3%Q 1700000000
       1700000001 Samples.sample_job empty_world in
   r = Raise (Exn KeyError "'content'") /\
   status job' = failed /\
   error_message job' = Some "'content'" /\
   generated_summaries w'
   = [summary_row Samples.sample_job (PyStr "s")]) /\
  (let '(r, job', saved, w') :=
     generate_summary Samples.json_loads_excerpt text_splitter
       Samples.llm_down Samples.db_keys MoreSamples.save_lost "gpt-4"
       1%Q 3%Q 1700000000 1700000001 Samples.sample_job empty_world in
   r = Raise (Exn (OtherException "OperationalError")
                "server closed the connection unexpectedly") /\
   saved = [processing_write Samples.sample_job]) /\
  (let '(r, job', saved, w') :=
     generate_summary Samples.json_loads_excerpt text_splitter
       MoreSamples.llm_interrupted Samples.db_keys Samples.save_open "gpt-4"
       1%Q 3%Q 1700000000 1700000001 Samples.sample_job empty_world in
   r = Raise (Exn (NonException "KeyboardInterrupt") "") /\
   status job' = processing /\
   error_message job' = None /\
   saved = [processing_write Samples.sample_job]).
Proof.
  pose (job1 := mark_processing Samples.sample_job).
  pose (fetched := _fetch_document_contexts Samples.db_keys job1 empty_world).
  pose (contexts := match fst fetched with Ok c => c | Raise _ => [] end).
  assert (Hfetch : _fetch_document_contexts Samples.db_keys job1 empty_world
                   = (Ok contexts, snd fetched))
    by (vm_compute; reflexivity).
  split; [|split; [|split; [|split]]].
  - pose proof (failed_run_is_recorded Samples.json_loads_excerpt
                  text_splitter Samples.llm_down MoreSamples.db_varchar
                  Samples.save_open "gpt-4" 1%Q 3%Q 1700000000 1700000001
                  MoreSamples.long_id_job empty_world
                  (Exn (OtherException "DataError")
                     "value too long for type character varying(100)")
                  eq_refl)
      as H.
    cbv zeta in H. destruct H as (Hstage & _ & _ & Hhandler).
    pose (rejected := _fetch_document_contexts MoreSamples.db_varchar
                        (mark_processing MoreSamples.long_id_job)
                        empty_world).
    assert (Hrej : _fetch_document_contexts MoreSamples.db_varchar
                     (mark_processing MoreSamples.long_id_job) empty_world
                   = (Raise (Exn (OtherException "DataError")
                               "value too long for type character varying(100)"),
                      snd rejected))
      by (vm_compute; reflexivity).
    destruct (Hstage _ Hrej) as [Hbody Hsame].
    destruct (Hhandler _ Hbody) as (Hcaught & _ & _).
    destruct (Hcaught eq_refl eq_refl) as (Hrun & Hstatus & Hmsg).
    rewrite Hrun.
    exact (conj eq_refl (conj Hstatus (conj Hmsg (conj eq_refl Hsame)))).
  - pose proof (failed_run_is_recorded Samples.json_loads_excerpt
                  text_splitter Samples.llm_down Samples.db_keys
                  Samples.save_open "gpt-4" 1%Q 3%Q 1700000000 1700000001
                  Samples.sample_job empty_world
                  (Exn (OtherException "RateLimitError") "Rate limit reached")
                  eq_refl)
      as H.
    cbv zeta in H. destruct H as (_ & Hstage & _ & Hhandler).
    pose (synth := _generate_with_langchain Samples.json_loads_excerpt
                     text_splitter Samples.llm_down job1 contexts
                     (snd fetched)).
    assert (Hgen : _generate_with_langchain Samples.json_loads_excerpt
                     text_splitter Samples.llm_down job1 contexts
                     (snd fetched)
                   = (Raise (Exn (OtherException "RateLimitError")
                               "Rate limit reached"),
                      snd synth))
      by (vm_compute; reflexivity).
    destruct (Hstage _ _ _ Hfetch Hgen) as [Hbody Hsame].
    destruct (Hhandler _ Hbody) as (Hcaught & _ & _).
    destruct (Hcaught eq_refl eq_refl) as (Hrun & Hstatus & Hmsg).
    rewrite Hrun.
    exact (conj eq_refl (conj Hstatus (conj Hmsg (conj eq_refl Hsame)))).
  - pose proof (failed_run_is_recorded Samples.json_loads_excerpt
                  text_splitter
                  (Samples.llm_constant Samples.reply_no_content 42)
                  Samples.db_keys Samples.save_open "gpt-4"
                  1%Q 3%Q 1700000000 1700000001 Samples.sample_job
                  empty_world (Exn KeyError "'content'") eq_refl)
      as H.
    cbv zeta in H. destruct H as (_ & _ & Hstage & Hhandler).
    pose (synth := _generate_with_langchain Samples.json_loads_excerpt
                     text_splitter
                     (Samples.llm_constant Samples.reply_no_content 42)
                     job1 contexts (snd fetched)).
    pose (summary_data :=
            dict_set "tokens_used" (PyInt 42)
              [ ("sections", PyList [ PyDict [ ("title", PyStr "A") ] ]);
                ("full_summary", PyStr "s") ]).
    assert (Hgen : _generate_with_langchain Samples.json_loads_excerpt
                     text_splitter
                     (Samples.llm_constant Samples.reply_no_content 42)
                     job1 contexts (snd fetched)
                   = (Ok (summary_data, PyInt 42), snd synth))
      by (vm_compute; reflexivity).
    pose (created := _create_summary_records Samples.db_keys job1
                       summary_data (snd synth)).
    assert (Hcreate : _create_summary_records Samples.db_keys job1
                        summary_data (snd synth)
                      = (Raise (Exn KeyError "'content'"), snd created))
      by (vm_compute; reflexivity).
    destruct (Hstage _ _ _ _ _ _ Hfetch Hgen Hcreate) as [Hbody Hrow].
    destruct (Hhandler _ Hbody) as (Hcaught & _ & _).
    destruct (Hcaught eq_refl eq_refl) as (Hrun & Hstatus & Hmsg).
    rewrite Hrun.
    exact (conj eq_refl
             (conj Hstatus (conj Hmsg (Hrow (PyStr "s") eq_refl eq_refl)))).
  - pose proof (failed_run_is_recorded Samples.json_loads_excerpt
                  text_splitter Samples.llm_down Samples.db_keys
                  MoreSamples.save_lost "gpt-4" 1%Q 3%Q 1700000000 1700000001
                  Samples.sample_job empty_world
                  (Exn (OtherException "RateLimitError") "Rate limit reached")
                  eq_refl)
      as H.
    cbv zeta in H. destruct H as (_ & Hstage & _ & Hhandler).
    pose (synth := _generate_with_langchain Samples.json_loads_excerpt
                     text_splitter Samples.llm_down job1 contexts
                     (snd fetched)).
    assert (Hgen : _generate_with_langchain Samples.json_loads_excerpt
                     text_splitter Samples.llm_down job1 contexts
                     (snd fetched)
                   = (Raise (Exn (OtherException "RateLimitError")
                               "Rate limit reached"),
                      snd synth))
      by (vm_compute; reflexivity).
    destruct (Hstage _ _ _ Hfetch Hgen) as [Hbody _].
    destruct (Hhandler _ Hbody) as (_ & Hlost & _).
    rewrite (Hlost eq_refl _ eq_refl).
    exact (conj eq_refl eq_refl).
  - pose proof (failed_run_is_recorded Samples.json_loads_excerpt
                  text_splitter MoreSamples.llm_interrupted Samples.db_keys
                  Samples.save_open "gpt-4" 1%Q 3%Q 1700000000 1700000001
                  Samples.sample_job empty_world
                  (Exn (NonException "KeyboardInterrupt") "") eq_refl)
      as H.
    cbv zeta in H. destruct H as (_ & Hstage & _ & Hhandler).
    pose (synth := _generate_with_langchain Samples.json_loads_excerpt
                     text_splitter MoreSamples.llm_interrupted job1 contexts
                     (snd fetched)).
    assert (Hgen : _generate_with_langchain Samples.json_loads_excerpt
                     text_splitter MoreSamples.llm_interrupted job1 contexts
                     (snd fetched)
                   = (Raise (Exn (NonException "KeyboardInterrupt") ""),
                      snd synth))
      by (vm_compute; reflexivity).
    destruct (Hstage _ _ _ Hfetch Hgen) as [Hbody _].
    destruct (Hhandler _ Hbody) as (_ & _ & Hpass).
    destruct (Hpass eq_refl) as (Hrun & Hstatus & Hmsg).
    rewrite Hrun.
    exact (conj eq_refl (conj Hstatus (conj Hmsg eq_refl))).
Defined.

(** C4 fails as stated.  When the model's reply holds a section without
    its content, the summary row is written before the section raises
    [KeyError]; the job ends failed and the row stays stored for it.  When
    the model call is interrupted from the keyboard, the exception is not
    caught: the job stays processing and no error is recorded.  When the
    database goes away after the job was made processing, the caller gets
    the exception of the failed save and not the one the stage raised, and
    the failed state is never written. *)
Lemma failed_run_departs_from_claim :
  (let '(r, job', saved, w') :=
     generate_summary Samples.json_loads_excerpt text_splitter
       (Samples.llm_constant Samples.reply_no_content 42)
       Samples.db_keys Samples.save_open "gpt-4" 1%Q 3%Q 1700000000
       1700000001 Samples.sample_job empty_world in
   r = Raise (Exn KeyError "'content'") /\
   status job' = failed /\
   generated_summaries w'
   = [mkGeneratedSummary "sum_job-1" "job-1" "project-1" "finance"
        (PyStr "s")] /\
   generated_summaries w' <> []) /\
  (let '(r, job', saved, w') :=
     generate_summary Samples.json_loads_excerpt text_splitter
       MoreSamples.llm_interrupted Samples.db_keys Samples.save_open "gpt-4"
       1%Q 3%Q 1700000000 1700000001 Samples.sample_job empty_world in
   r = Raise (Exn (NonException "KeyboardInterrupt") "") /\
   status job' = processing /\
   status job' <> failed /\
   error_message job' = None) /\
  (let '(r, job', saved, w') :=
     generate_summary Samples.json_loads_excerpt text_splitter
       Samples.llm_down Samples.db_keys MoreSamples.save_lost "gpt-4"
       1%Q 3%Q 1700000000 1700000001 Samples.sample_job empty_world in
   r = Raise (Exn (OtherException "OperationalError")
                "server closed the connection unexpectedly") /\
   r <> Raise (Exn (OtherException "RateLimitError") "Rate limit reached") /\
   saved = [SaveFields ["status"; "updated_at"]
              (mark_processing Samples.sample_job)]).
Proof.
  vm_compute. repeat split; discriminate.
Qed.

(** * Further properties of the code *)

(** ** Strings *)

Lemma str_app_nil_r : forall s : string, s ++ "" = s.
Proof. induction s as [ | c s IH ]; simpl; [reflexivity|now rewrite IH]. Qed.

Lemma str_app_assoc : forall s t u : string, (s ++ t) ++ u = s ++ (t ++ u).
Proof.
  induction s as [ | c s IH ]; intros t u; simpl; [reflexivity|now rewrite IH].
Qed.

Lemma str_length_app :
  forall s t : string,
    String.length (s ++ t) = (String.length s + String.length t)%nat.
Proof.
  induction s as [ | c s IH ]; intros t; simpl; [reflexivity|now rewrite IH].
Qed.

Lemma length_prefix :
  forall (n : nat) (s : string),
    String.length (substring 0 n s) = Nat.min n (String.length s).
Proof.
  induction n as [ | n IH ]; intros [ | c s ]; simpl; try reflexivity.
  now rewrite IH.
Qed.

(** ** [truncate_text] *)

Lemma truncate_within :
  forall text max_tokens,
    Utils.estimate_tokens text <= max_tokens ->
    Utils.truncate_text text max_tokens = text.
Proof.
  intros text m H. unfold Utils.truncate_text.
  apply Z.leb_le in H. now rewrite H.
Qed.

Lemma truncate_length :
  forall text max_tokens,
    0 <= max_tokens ->
    max_tokens < Utils.estimate_tokens text ->
    len (Utils.truncate_text text max_tokens) = 4 * max_tokens + 3.
Proof.
  intros text m Hm Hover. unfold Utils.truncate_text.
  apply Z.leb_gt in Hover as Hleb. rewrite Hleb.
  unfold Utils.estimate_tokens in Hover.
  assert (Hlong : 4 * m + 4 <= len text).
  { pose proof (Z.mul_div_le (len text) 4 ltac:(lia)). lia. }
  unfold slice_to. replace (0 <=? m * 4) with true
    by (symmetry; apply Z.leb_le; lia).
  unfold len in *. rewrite str_length_app, length_prefix. simpl String.length.
  lia.
Qed.

(** X1. For a budget that is not negative, [truncate_text] returns a text
    whose token estimate is within the budget and that is no longer than
    its input; truncating a second time changes nothing. *)
Theorem truncate_text_fits_budget :
  forall (text : string) (max_tokens : Z),
    0 <= max_tokens ->
    Utils.estimate_tokens (Utils.truncate_text text max_tokens) <= max_tokens /\
    len (Utils.truncate_text text max_tokens) <= len text /\
    Utils.truncate_text (Utils.truncate_text text max_tokens) max_tokens
    = Utils.truncate_text text max_tokens.
Proof.
  intros text m Hm.
  assert (Hfit : Utils.estimate_tokens (Utils.truncate_text text m) <= m).
  { destruct (Z_le_gt_dec (Utils.estimate_tokens text) m) as [Hin | Hover].
    - now rewrite truncate_within.
    - unfold Utils.estimate_tokens at 1.
      rewrite truncate_length by lia.
      replace (4 * m + 3) with (m * 4 + 3) by lia.
      rewrite Z.div_add_l by lia. rewrite (Z.div_small 3 4) by lia. lia. }
  split; [exact Hfit|]. split.
  - destruct (Z_le_gt_dec (Utils.estimate_tokens text) m) as [Hin | Hover].
    + rewrite truncate_within by exact Hin. lia.
    + rewrite truncate_length by lia.
      unfold Utils.estimate_tokens in Hover.
      pose proof (Z.mul_div_le (len text) 4 ltac:(lia)). lia.
  - now apply truncate_within.
Qed.

Lemma truncate_text_fits_budget_witness :
  Utils.estimate_tokens (Utils.truncate_text "abcdefghijklmnop" 2) <= 2 /\
  len (Utils.truncate_text "abcdefghijklmnop" 2) <= len "abcdefghijklmnop" /\
  Utils.truncate_text (Utils.truncate_text "abcdefghijklmnop" 2) 2
  = Utils.truncate_text "abcdefghijklmnop" 2.
Proof.
  apply (truncate_text_fits_budget "abcdefghijklmnop" 2). lia.
Defined.

(** X2. For a negative budget [truncate_text] neither fails nor returns
    an empty text: it keeps all but the last [4 * |max_tokens|] characters
    and appends the ellipsis, so the result is never within the budget. *)
Theorem truncate_text_negative_budget :
  forall (text : string) (max_tokens : Z),
    max_tokens < 0 ->
    Utils.truncate_text text max_tokens
    = substring 0 (Z.to_nat (len text + 4 * max_tokens)) text ++ "..." /\
    max_tokens < Utils.estimate_tokens (Utils.truncate_text text max_tokens).
Proof.
  intros text m Hm.
  assert (Hpos : forall s, 0 <= Utils.estimate_tokens s).
  { intros s. unfold Utils.estimate_tokens, len. apply Z.div_pos; lia. }
  split; [|specialize (Hpos (Utils.truncate_text text m)); lia].
  unfold Utils.truncate_text.
  replace (Utils.estimate_tokens text <=? m) with false
    by (symmetry; apply Z.leb_gt; specialize (Hpos text); lia).
  unfold slice_to.
  replace (0 <=? m * 4) with false by (symmetry; apply Z.leb_gt; lia).
  now replace (len text + m * 4) with (len text + 4 * m) by lia.
Qed.

Lemma truncate_text_negative_budget_witness :
  Utils.truncate_text "abcdefghijklmnop" (-1) = "abcdefghijkl..." /\
  -1 < Utils.estimate_tokens (Utils.truncate_text "abcdefghijklmnop" (-1)).
Proof.
  apply (truncate_text_negative_budget "abcdefghijklmnop" (-1)). lia.
Defined.

(** ** Splitting on whitespace and joining with spaces *)

Lemma no_space_app :
  forall s t, no_space (s ++ t) = no_space s && no_space t.
Proof.
  induction s as [ | c s IH ]; intros t; simpl; [reflexivity|].
  now rewrite IH, andb_assoc.
Qed.

Lemma is_word_no_space : forall w, is_word w = true -> no_space w = true.
Proof. intros [ | c w ] H; [discriminate|exact H]. Qed.

Lemma is_word_app :
  forall w t, is_word w = true -> no_space t = true -> is_word (w ++ t) = true.
Proof.
  intros [ | c w ] t Hw Ht; [discriminate|].
  change (no_space (String c w ++ t) = true).
  rewrite no_space_app. change (no_space (String c w) = true) in Hw.
  now rewrite Hw, Ht.
Qed.

Lemma split_from_run :
  forall w s word,
    no_space w = true ->
    split_from (w ++ s) word = split_from s (word ++ w).
Proof.
  induction w as [ | c w IH ]; intros s word Hw; simpl.
  - now rewrite str_app_nil_r.
  - simpl in Hw. apply andb_prop in Hw. destruct Hw as [Hc Hw].
    apply negb_true_iff in Hc. rewrite Hc.
    rewrite IH by exact Hw. now rewrite str_app_assoc.
Qed.

Lemma split_from_words :
  forall s word,
    no_space word = true -> Forall (fun w => is_word w = true) (split_from s word).
Proof.
  induction s as [ | c s IH ]; intros word Hword; simpl.
  - destruct word; [constructor|]. constructor; [exact Hword|constructor].
  - destruct (is_space c) eqn:Hc.
    + destruct word.
      * now apply IH.
      * constructor; [exact Hword|now apply IH].
    + apply IH. rewrite no_space_app, Hword. simpl. now rewrite Hc.
Qed.

Lemma join_cons :
  forall sep w v rest,
    join sep (w :: v :: rest) = w ++ sep ++ join sep (v :: rest).
Proof. reflexivity. Qed.

(** Splitting a text made of words joined by single spaces gives the words
    back. *)
Lemma split_join :
  forall ws,
    Forall (fun w => is_word w = true) ws ->
    str_split (join " " ws) = ws.
Proof.
  unfold str_split.
  induction ws as [ | w ws IH ]; intros H; [reflexivity|].
  inversion H as [ | w' ws' Hw Hws ]; subst.
  destruct ws as [ | v rest ].
  - simpl join. rewrite <- (str_app_nil_r w) at 1.
    rewrite split_from_run by now apply is_word_no_space.
    simpl. destruct w; [discriminate|reflexivity].
  - rewrite join_cons.
    rewrite split_from_run by now apply is_word_no_space.
    simpl. destruct w; [discriminate|].
    f_equal. now apply IH.
Qed.

Lemma join_snoc :
  forall l w t,
    join " " (l ++ [w]) ++ t = join " " (l ++ [w ++ t]).
Proof.
  induction l as [ | a l IH ]; intros w t.
  - reflexivity.
  - destruct l as [ | b l ].
    + simpl. now rewrite !str_app_assoc.
    + cbn [app]. rewrite !join_cons, !str_app_assoc.
      do 2 f_equal. exact (IH w t).
Qed.

Lemma lstrip_word_prefix :
  forall w s, is_word w = true -> lstrip (w ++ s) = w ++ s.
Proof.
  intros [ | c w ] s H; [discriminate|].
  simpl in *. apply andb_prop in H. destruct H as [Hc _].
  apply negb_true_iff in Hc. now rewrite Hc.
Qed.

Lemma rstrip_no_space : forall w, no_space w = true -> rstrip w = w.
Proof.
  induction w as [ | c w IH ]; intros H; [reflexivity|].
  simpl in *. apply andb_prop in H. destruct H as [Hc Hw].
  apply negb_true_iff in Hc. rewrite (IH Hw), Hc. now destruct w.
Qed.

Lemma rstrip_word_suffix :
  forall s w, is_word w = true -> rstrip (s ++ w) = s ++ w.
Proof.
  induction s as [ | c s IH ]; intros w Hw.
  - now apply rstrip_no_space, is_word_no_space.
  - simpl. rewrite (IH w Hw).
    destruct (s ++ w) eqn:E; [|reflexivity].
    destruct s; destruct w; simpl in E; discriminate.
Qed.

Lemma join_words_shape :
  forall ws,
    Forall (fun w => is_word w = true) ws ->
    ws <> [] ->
    (exists w s, is_word w = true /\ join " " ws = w ++ s) /\
    (exists s w, is_word w = true /\ join " " ws = s ++ w).
Proof.
  induction ws as [ | w ws IH ]; intros H Hne; [contradiction|].
  inversion H as [ | w' ws' Hw Hws ]; subst.
  destruct ws as [ | v rest ].
  - split.
    + exists w, "". split; [exact Hw|]. simpl. now rewrite str_app_nil_r.
    + exists "", w. now split.
  - rewrite join_cons. split.
    + exists w, (" " ++ join " " (v :: rest)). now split.
    + destruct (IH Hws ltac:(discriminate)) as [_ (s & u & Hu & E)].
      exists (w ++ " " ++ s), u. split; [exact Hu|].
      rewrite E. now rewrite !str_app_assoc.
Qed.

Lemma strip_join_words :
  forall ws,
    Forall (fun w => is_word w = true) ws ->
    str_strip (join " " ws) = join " " ws.
Proof.
  intros ws H. destruct ws as [ | w ws ]; [reflexivity|].
  destruct (join_words_shape _ H ltac:(discriminate))
    as [(a & s & Ha & E1) (t & b & Hb & E2)].
  unfold str_strip. rewrite E1 at 1. rewrite lstrip_word_prefix by exact Ha.
  rewrite <- E1, E2. now apply rstrip_word_suffix.
Qed.

Lemma lacks_char_app :
  forall c s t, lacks_char c (s ++ t) = lacks_char c s && lacks_char c t.
Proof.
  induction s as [ | a s IH ]; intros t; simpl; [reflexivity|].
  now rewrite IH, andb_assoc.
Qed.

Lemma lacks_char_removed : forall c s, lacks_char c (remove_char c s) = true.
Proof.
  induction s as [ | a s IH ]; simpl; [reflexivity|].
  destruct (Ascii.eqb a c) eqn:E; [exact IH|]. simpl. now rewrite E, IH.
Qed.

Lemma remove_char_absent :
  forall c s, lacks_char c s = true -> remove_char c s = s.
Proof.
  induction s as [ | a s IH ]; intros H; simpl in *; [reflexivity|].
  apply andb_prop in H. destruct H as [Ha Hs].
  apply negb_true_iff in Ha. now rewrite Ha, IH.
Qed.

Lemma split_from_lacks :
  forall c s word,
    lacks_char c s = true -> lacks_char c word = true ->
    Forall (fun w => lacks_char c w = true) (split_from s word).
Proof.
  induction s as [ | a s IH ]; intros word Hs Hword; simpl in *.
  - destruct word; [constructor|]. constructor; [exact Hword|constructor].
  - apply andb_prop in Hs. destruct Hs as [Ha Hs].
    destruct (is_space a).
    + destruct word.
      * now apply IH.
      * constructor; [exact Hword|now apply IH].
    + apply IH; [exact Hs|]. rewrite lacks_char_app, Hword. simpl.
      now rewrite Ha.
Qed.

Lemma join_lacks :
  forall c ws,
    Ascii.eqb " "%char c = false ->
    Forall (fun w => lacks_char c w = true) ws ->
    lacks_char c (join " " ws) = true.
Proof.
  intros c ws Hc.
  assert (Hsp : lacks_char c " " = true)
    by (unfold lacks_char; now rewrite Hc).
  induction ws as [ | w ws IH ]; intros H; [reflexivity|].
  inversion H as [ | w' ws' Hw Hws ]; subst.
  destruct ws as [ | v rest ]; [exact Hw|].
  now rewrite join_cons, !lacks_char_app, Hw, (IH Hws), Hsp.
Qed.

(** ** [sanitize_input] *)

Lemma sanitize_words :
  forall text,
    Forall (fun w => is_word w = true) (str_split (remove_char zero text)) /\
    Forall (fun w => lacks_char zero w = true)
      (str_split (remove_char zero text)).
Proof.
  intros text. split.
  - now apply split_from_words.
  - apply split_from_lacks; [apply lacks_char_removed|reflexivity].
Qed.

Lemma sanitize_unfold :
  forall text,
    Utils.sanitize_input text = join " " (str_split (remove_char zero text)).
Proof.
  intros text. unfold Utils.sanitize_input.
  apply strip_join_words, sanitize_words.
Qed.

(** X3. The text [sanitize_input] returns holds no NUL character, has no
    whitespace at either end, and is its own words joined by single
    spaces. *)
Theorem sanitize_input_normal_form :
  forall text : string,
    let clean := Utils.sanitize_input text in
    lacks_char zero clean = true /\
    str_strip clean = clean /\
    Forall (fun w => is_word w = true) (str_split clean) /\
    join " " (str_split clean) = clean.
Proof.
  intros text clean. subst clean. rewrite sanitize_unfold.
  destruct (sanitize_words text) as [Hwords Hnul].
  rewrite (split_join _ Hwords).
  split; [now apply join_lacks|].
  split; [now apply strip_join_words|].
  split; [exact Hwords|reflexivity].
Qed.

(** X4. [sanitize_input] is idempotent. *)
Theorem sanitize_input_idempotent :
  forall text : string,
    Utils.sanitize_input (Utils.sanitize_input text) = Utils.sanitize_input text.
Proof.
  intros text. rewrite (sanitize_unfold (Utils.sanitize_input text)).
  rewrite (sanitize_unfold text).
  destruct (sanitize_words text) as [Hwords Hnul].
  rewrite remove_char_absent by now apply join_lacks.
  now rewrite (split_join _ Hwords).
Qed.

(** ** [merge_summaries] *)

Lemma slice_to_nonneg :
  forall (A : Type) (l : list A) (k : Z),
    0 <= k -> list_slice_to l k = firstn (Z.to_nat k) l.
Proof.
  intros A l k Hk. unfold list_slice_to.
  apply Z.leb_le in Hk. now rewrite Hk.
Qed.

Lemma Forall_prefix :
  forall (A : Type) (P : A -> Prop) (n : nat) (l : list A),
    Forall P l -> Forall P (firstn n l).
Proof.
  intros A P n. induction n as [ | n IH ]; intros l H; simpl.
  - constructor.
  - destruct H; constructor; auto.
Qed.

Lemma split_join_dots :
  forall ws,
    Forall (fun w => is_word w = true) ws ->
    ws <> [] ->
    List.length (str_split (join " " ws ++ "...")) = List.length ws.
Proof.
  intros ws Hws Hne.
  destruct (exists_last Hne) as (l & w & ->).
  rewrite join_snoc.
  apply Forall_app in Hws. destruct Hws as [Hl Hw].
  inversion Hw as [ | w' x Hword _ ]; subst.
  rewrite split_join.
  - now rewrite !length_app.
  - apply Forall_app. split; [exact Hl|].
    constructor; [|constructor]. now apply is_word_app.
Qed.

(** X5. For two or more summaries and a limit of at least one word,
    [merge_summaries] returns at most that many words.  With a limit of
    zero, and summaries that hold any word, it returns the bare ellipsis,
    which is one word. *)
Theorem merge_summaries_word_limit :
  forall (summaries : list string) (max_length : Z),
    (2 <= List.length summaries)%nat ->
    (1 <= max_length ->
     Z.of_nat (List.length
                 (str_split (Utils.merge_summaries summaries max_length)))
     <= max_length) /\
    (max_length = 0 ->
     str_split (join " " summaries) <> [] ->
     Utils.merge_summaries summaries max_length = "...").
Proof.
  intros summaries m Hmany.
  destruct summaries as [ | a [ | b rest ] ]; simpl in Hmany; try lia.
  unfold Utils.merge_summaries.
  set (combined := join " " (a :: b :: rest)).
  set (words := str_split combined).
  assert (Hwords : Forall (fun w => is_word w = true) words)
    by now apply split_from_words.
  split.
  - intros Hm. destruct (Z.of_nat (List.length words) <=? m) eqn:Hfit.
    + apply Z.leb_le in Hfit. exact Hfit.
    + apply Z.leb_gt in Hfit. rewrite slice_to_nonneg by lia.
      assert (Hlen : List.length (firstn (Z.to_nat m) words) = Z.to_nat m)
        by (rewrite length_firstn; lia).
      rewrite split_join_dots.
      * rewrite Hlen. lia.
      * now apply Forall_prefix.
      * intros E. rewrite E in Hlen. simpl in Hlen. lia.
  - intros -> Hne. fold combined in Hne. fold words in Hne.
    destruct words as [ | w ws ]; [contradiction|]. reflexivity.
Qed.

Lemma merge_summaries_word_limit_witness :
  Z.of_nat (List.length
              (str_split (Utils.merge_summaries ["on time and"; "under budget"] 3)))
  <= 3 /\
  Utils.merge_summaries ["on time and"; "under budget"] 0 = "...".
Proof.
  destruct (merge_summaries_word_limit ["on time and"; "under budget"] 3)
    as [Hlimit _]; [simpl; lia|].
  destruct (merge_summaries_word_limit ["on time and"; "under budget"] 0)
    as [_ Hzero]; [simpl; lia|].
  split.
  - apply Hlimit. lia.
  - apply Hzero; [reflexivity|]. vm_compute. discriminate.
Defined.

(** ** [validate_document_ids] *)

(** X6. [validate_document_ids] accepts exactly the lists of 1 to 50
    entries that are all non-empty strings. *)
Theorem validate_document_ids_accepts :
  forall document_ids : list pyval,
    Utils.validate_document_ids document_ids = true <->
    (1 <= List.length document_ids <= 50)%nat /\
    Forall (fun doc_id => exists s, doc_id = PyStr s /\ s <> "") document_ids.
Proof.
  intros ids.
  assert (Hall : forallb (fun doc_id =>
                            match doc_id with
                            | PyStr s => negb (String.eqb s "")
                            | _ => false
                            end) ids = true <->
                 Forall (fun doc_id => exists s, doc_id = PyStr s /\ s <> "") ids).
  { rewrite forallb_forall, Forall_forall. split; intros H v Hv.
    - specialize (H v Hv). destruct v; try discriminate.
      exists s. split; [reflexivity|].
      apply negb_true_iff, String.eqb_neq in H. exact H.
    - destruct (H v Hv) as (s & -> & Hs).
      now apply negb_true_iff, String.eqb_neq. }
  unfold Utils.validate_document_ids.
  destruct ids as [ | v ids ].
  - split; [discriminate|]. simpl. lia.
  - destruct (50 <? List.length (v :: ids))%nat eqn:Hlen.
    + apply Nat.ltb_lt in Hlen. split; [discriminate|]. lia.
    + apply Nat.ltb_ge in Hlen. rewrite Hall. simpl List.length in *.
      split; [intros H; split; [lia|exact H]|intros [_ H]; exact H].
Qed.

(** ** [_fetch_document_contexts] *)

Lemma add_contexts_nil : forall w, add_contexts [] w = w.
Proof. intros [c d g s]. unfold add_contexts. simpl. now rewrite app_nil_r. Qed.

Lemma add_contexts_app :
  forall cs ds w,
    add_contexts ds (add_contexts cs w) = add_contexts (cs ++ ds) w.
Proof. intros. unfold add_contexts. simpl. now rewrite app_assoc. Qed.

Lemma fetch_loop_stores :
  forall db_reject job doc_ids contexts w,
    (forall w' x, In x doc_ids ->
                  db_reject w' (RowContext (placeholder_context job x)) = None) ->
    fetch_loop db_reject job doc_ids contexts w
    = (Ok (contexts ++ map (placeholder_context job) doc_ids)%list,
       add_contexts (map (placeholder_context job) doc_ids) w).
Proof.
  intros db_reject job doc_ids.
  induction doc_ids as [ | x rest IH ]; intros contexts w Hacc;
    cbn [fetch_loop map].
  - unfold ret. now rewrite app_nil_r, add_contexts_nil.
  - unfold bind at 1, objects_create.
    fold (placeholder_context job x).
    rewrite (Hacc w x (or_introl eq_refl)).
    rewrite IH by (intros; apply Hacc; now right).
    change (insert_row (RowContext (placeholder_context job x)) w)
      with (add_contexts [placeholder_context job x] w).
    rewrite add_contexts_app, <- app_assoc. reflexivity.
Qed.

Lemma fetch_loop_rejected :
  forall db_reject job pre x post e contexts w,
    (forall w' y, In y pre ->
                  db_reject w' (RowContext (placeholder_context job y)) = None) ->
    (forall w', db_reject w' (RowContext (placeholder_context job x)) = Some e) ->
    fetch_loop db_reject job (pre ++ x :: post) contexts w
    = (Raise e, add_contexts (map (placeholder_context job) pre) w).
Proof.
  intros db_reject job pre x post e.
  induction pre as [ | y pre IH ]; intros contexts w Hacc Hrej;
    cbn [fetch_loop map app].
  - unfold bind at 1, objects_create.
    fold (placeholder_context job x). rewrite Hrej.
    now rewrite add_contexts_nil.
  - unfold bind at 1, objects_create.
    fold (placeholder_context job y).
    rewrite (Hacc w y (or_introl eq_refl)).
    rewrite IH; [| |exact Hrej].
    + change (insert_row (RowContext (placeholder_context job y)) w)
        with (add_contexts [placeholder_context job y] w).
      now rewrite add_contexts_app.
    + intros; apply Hacc; now right.
Qed.

(** X7. On a database that accepts the rows, [_fetch_document_contexts]
    stores and returns one placeholder context per requested document id,
    in request order and without removing repeated ids. *)
Theorem fetch_stores_one_placeholder_per_id :
  forall (db_reject : world -> db_row -> option exn) (job : SummaryJob)
         (w : world),
    accepts_all db_reject ->
    let contexts := map (placeholder_context job) (document_ids job) in
    _fetch_document_contexts db_reject job w
    = (Ok contexts, add_contexts contexts w) /\
    map dc_document_id contexts = document_ids job /\
    List.length contexts = List.length (document_ids job).
Proof.
  intros db_reject job w Hacc contexts. split; [|split].
  - unfold _fetch_document_contexts.
    rewrite fetch_loop_stores by (intros; apply Hacc). reflexivity.
  - unfold contexts. rewrite map_map. simpl. apply map_id.
  - unfold contexts. apply length_map.
Qed.

Lemma fetch_stores_one_placeholder_per_id_witness :
  let '(r, w') :=
    _fetch_document_contexts MoreSamples.db_open Samples.sample_job
      empty_world in
  r = Ok (document_contexts w') /\
  map dc_document_id (document_contexts w') = ["doc1"; "doc2"; "doc3"].
Proof.
  destruct (fetch_stores_one_placeholder_per_id MoreSamples.db_open
              Samples.sample_job empty_world (fun _ _ => eq_refl))
    as (Hrun & Hids & _).
  rewrite Hrun. split; [reflexivity|exact Hids].
Defined.

(** X8. When the database rejects the context of one document id,
    [_fetch_document_contexts] raises that error and the contexts already
    stored for the ids before it stay stored. *)
Theorem fetch_keeps_rows_before_rejection :
  forall (db_reject : world -> db_row -> option exn) (job : SummaryJob)
         (pre : list string) (x : string) (post : list string) (e : exn)
         (w : world),
    document_ids job = (pre ++ x :: post)%list ->
    (forall w' y, In y pre ->
                  db_reject w' (RowContext (placeholder_context job y)) = None) ->
    (forall w', db_reject w' (RowContext (placeholder_context job x)) = Some e) ->
    _fetch_document_contexts db_reject job w
    = (Raise e, add_contexts (map (placeholder_context job) pre) w).
Proof.
  intros db_reject job pre x post e w Hids Hacc Hrej.
  unfold _fetch_document_contexts. rewrite Hids.
  now apply fetch_loop_rejected.
Qed.

(** ** [_create_summary_records] *)

Lemma getitem_present :
  forall d key,
    dict_has key d = true ->
    py_getitem (PyDict d) key = Ok (dict_get_default key PyNone d).
Proof.
  intros d key H. unfold py_getitem, dict_get_default, dict_has in *.
  now destruct (dict_get key d).
Qed.

Lemma add_sections_nil : forall w, add_sections [] w = w.
Proof. intros [c d g s]. unfold add_sections. simpl. now rewrite app_nil_r. Qed.

Lemma create_sections_stores :
  forall db_reject summary ds i w,
    accepts_all db_reject ->
    forallb has_title_and_content ds = true ->
    create_sections db_reject summary (map PyDict ds) i w
    = (Ok tt, add_sections (section_rows (gs_id summary) i ds) w).
Proof.
  intros db_reject summary ds.
  induction ds as [ | d ds IH ]; intros i w Hacc Hok; cbn [map create_sections].
  - unfold ret. now rewrite add_sections_nil.
  - cbn [forallb] in Hok. apply andb_prop in Hok. destruct Hok as [Hd Hds].
    unfold has_title_and_content in Hd. apply andb_prop in Hd.
    destruct Hd as [Ht Hc].
    unfold bind at 1, lift at 1. rewrite (getitem_present _ _ Ht).
    unfold bind at 1, lift at 1. rewrite (getitem_present _ _ Hc).
    unfold bind at 1, objects_create. rewrite Hacc.
    rewrite IH by assumption.
    unfold add_sections, insert_row, section_rows, section_row. simpl.
    now rewrite <- app_assoc.
Qed.

Lemma section_rows_order :
  forall sid ds i,
    map sec_order (section_rows sid i ds)
    = map (fun k => i + Z.of_nat k) (seq 0 (List.length ds)).
Proof.
  intros sid ds. induction ds as [ | d ds IH ]; intros i; [reflexivity|].
  cbn [section_rows map List.length seq]. f_equal.
  - unfold section_row. simpl. lia.
  - rewrite IH, <- seq_shift, map_map. apply map_ext. intros k. lia.
Qed.

Lemma create_records_stores :
  forall db_reject job summary_data full ds w,
    accepts_all db_reject ->
    dict_get "full_summary" summary_data = Some full ->
    dict_get "sections" summary_data = Some (PyList (map PyDict ds)) ->
    forallb has_title_and_content ds = true ->
    _create_summary_records db_reject job summary_data w
    = (Ok (summary_row job full),
       add_records (summary_row job full)
         (section_rows (Utils.generate_summary_id (id job)) 0 ds) w).
Proof.
  intros db_reject job sd full ds w Hacc Hfull Hsecs Hok.
  unfold _create_summary_records.
  unfold bind at 1, lift at 1, py_getitem at 1. rewrite Hfull.
  unfold bind at 1, objects_create at 1. rewrite Hacc.
  unfold bind at 1, lift at 1, py_getitem at 1. rewrite Hsecs.
  unfold bind at 1, lift at 1, py_iter.
  unfold bind at 1.
  rewrite create_sections_stores by assumption.
  reflexivity.
Qed.

(** X9. On a database that accepts the rows, and for summary data whose
    sections all carry a title and a content, [_create_summary_records]
    stores one summary row, with the id [generate_summary_id] derives from
    the job, and one section row per section, in the order of the data and
    numbered from 0. *)
Theorem create_records_keeps_section_order :
  forall (db_reject : world -> db_row -> option exn) (job : SummaryJob)
         (summary_data : pydict) (full : pyval) (ds : list pydict) (w : world),
    accepts_all db_reject ->
    dict_get "full_summary" summary_data = Some full ->
    dict_get "sections" summary_data = Some (PyList (map PyDict ds)) ->
    forallb has_title_and_content ds = true ->
    let summary_id := Utils.generate_summary_id (id job) in
    let rows := section_rows summary_id 0 ds in
    _create_summary_records db_reject job summary_data w
    = (Ok (summary_row job full), add_records (summary_row job full) rows w) /\
    gs_id (summary_row job full) = summary_id /\
    List.length rows = List.length ds /\
    map sec_order rows = map Z.of_nat (seq 0 (List.length ds)) /\
    map sec_title rows = map (dict_get_default "title" PyNone) ds.
Proof.
  intros db_reject job sd full ds w Hacc Hfull Hsecs Hok summary_id rows.
  split; [now apply create_records_stores|].
  split; [reflexivity|].
  assert (Hrows : forall i, List.length (section_rows summary_id i ds)
                            = List.length ds
                            /\ map sec_title (section_rows summary_id i ds)
                               = map (dict_get_default "title" PyNone) ds).
  { clear. induction ds as [ | d ds IH ]; intros i; [now split|].
    destruct (IH (i + 1)) as [Hl Ht]. simpl. now rewrite Hl, Ht. }
  split; [apply Hrows|]. split; [|apply Hrows].
  unfold rows. rewrite section_rows_order. apply map_ext. intros k. lia.
Qed.

(** ** [generate_summary] *)

(** X10. When the database accepts the rows and the two saves of the
    job, and the synthesizer returns well-formed summary data,
    [generate_summary] returns the summary, leaves the job completed with
    the model name, token count and duration, has written the job as
    processing and then as completed, and has added exactly one summary
    row, one section row per section and one context per document id. *)
Theorem successful_run_completes_job :
  forall (json_loads : string -> result pyval)
         (split_text : string -> list string)
         (llm : nat -> prompt -> result (string * Z))
         (db_reject : world -> db_row -> option exn)
         (save_reject : world -> job_write -> option exn)
         (model_name : string) (time_start time_end : Q) (now now_failed : Z)
         (job : SummaryJob) (w w2 : world)
         (summary_data : pydict) (t : Z) (full : pyval) (ds : list pydict),
    accepts_all db_reject ->
    let job1 := mark_processing job in
    let contexts := map (placeholder_context job) (document_ids job) in
    _generate_with_langchain json_loads split_text llm job1 contexts
      (add_contexts contexts w)
    = (Ok (summary_data, PyInt t), w2) ->
    dict_get "full_summary" summary_data = Some full ->
    dict_get "sections" summary_data = Some (PyList (map PyDict ds)) ->
    forallb has_title_and_content ds = true ->
    let rows := section_rows (Utils.generate_summary_id (id job)) 0 ds in
    let w3 := add_records (summary_row job full) rows w2 in
    let completed_job :=
      mark_completed now (Some model_name) (Some t)
        (Some (time_end - time_start)%Q) job1 in
    save_reject w (processing_write job) = None ->
    save_reject w3 (SaveAll completed_job) = None ->
    generate_summary json_loads split_text llm db_reject save_reject
      model_name time_start time_end now now_failed job w
    = (Ok (summary_row job full), completed_job,
       [processing_write job; SaveAll completed_job], w3) /\
    status completed_job = completed /\
    generated_summaries w3
    = (generated_summaries w ++ [summary_row job full])%list /\
    summary_sections w3 = (summary_sections w ++ rows)%list /\
    document_contexts w3 = (document_contexts w ++ contexts)%list.
Proof.
  intros json_loads split_text llm db_reject save_reject model_name
    time_start time_end now now_failed job w w2 sd t full ds Hacc job1
    contexts Hgen Hfull Hsecs Hok rows w3 completed_job Hsave1 Hsave2.
  assert (Hfetch : _fetch_document_contexts db_reject job1 w
                   = (Ok contexts, add_contexts contexts w)).
  { unfold _fetch_document_contexts.
    rewrite fetch_loop_stores by (intros; apply Hacc). reflexivity. }
  assert (Hcreate : _create_summary_records db_reject job1 sd w2
                    = (Ok (summary_row job full), w3))
    by (apply (create_records_stores db_reject job1); assumption).
  pose proof (generate_frame _ _ _ _ _ _ _ _ Hgen) as (ps & Hw2 & _).
  split; [|split; [reflexivity|]];
    [|subst w3; rewrite Hw2; repeat split; reflexivity].
  assert (Hbody : generate_body json_loads split_text llm db_reject job1 w
                  = (Ok (summary_row job full, PyInt t), w3)).
  { unfold generate_body.
    unfold bind at 1. rewrite Hfetch.
    unfold bind at 1. rewrite Hgen.
    unfold bind at 1. now rewrite Hcreate. }
  unfold generate_summary, try_block. fold (processing_write job).
  rewrite Hsave1. fold job1. rewrite Hbody.
  cbn [tokens_argument]. fold completed_job.
  now rewrite Hsave2.
Qed.

Lemma create_rejected_on_stored_key :
  forall db_reject job summary_data w,
    enforces_summary_key db_reject ->
    existsb (fun r => String.eqb (gs_id r)
                        (Utils.generate_summary_id (id job)))
      (generated_summaries w) = true ->
    exists e, _create_summary_records db_reject job summary_data w = (Raise e, w).
Proof.
  intros db_reject job sd w Hkey Hstored.
  unfold _create_summary_records.
  unfold bind at 1, lift at 1.
  destruct (py_getitem (PyDict sd) "full_summary") as [full | e];
    [|now exists e].
  unfold bind at 1, objects_create at 1.
  pose proof (Hkey w (summary_row job full) Hstored) as Hrej.
  fold (summary_row job full).
  destruct (db_reject w (RowSummary (summary_row job full))) as [e | ];
    [now exists e|contradiction].
Qed.

Lemma body_rejected_on_stored_key :
  forall json_loads split_text llm db_reject job w,
    enforces_summary_key db_reject ->
    existsb (fun r => String.eqb (gs_id r)
                        (Utils.generate_summary_id (id job)))
      (generated_summaries w) = true ->
    exists e w',
      generate_body json_loads split_text llm db_reject job w = (Raise e, w')
      /\ same_summaries w w'.
Proof.
  intros json_loads split_text llm db_reject job w Hkey Hstored.
  unfold generate_body.
  unfold bind at 1.
  destruct (_fetch_document_contexts db_reject job w)
    as [[contexts | e] w1] eqn:Hfetch.
  2:{ exists e, w1. split; [reflexivity|].
      exact (fetch_frame _ _ _ _ _ Hfetch). }
  pose proof (fetch_frame _ _ _ _ _ Hfetch) as [Hg1 Hs1].
  unfold bind at 1.
  destruct (_generate_with_langchain json_loads split_text llm job contexts w1)
    as [[[sd tokens] | e] w2] eqn:Hgen;
    pose proof (only_prompts_same_summaries _ _ _ _
                  (generate_frame _ _ _ _ _ _ _ _ Hgen)) as [Hg2 Hs2].
  2:{ exists e, w2. split; [reflexivity|]. split; congruence. }
  assert (Hstored2 : existsb (fun r => String.eqb (gs_id r)
                                (Utils.generate_summary_id (id job)))
                       (generated_summaries w2) = true)
    by (rewrite Hg2, Hg1; exact Hstored).
  destruct (create_rejected_on_stored_key db_reject job sd w2 Hkey Hstored2)
    as (e & Hcreate).
  unfold bind at 1. rewrite Hcreate.
  exists e, w2. split; [reflexivity|]. split; congruence.
Qed.

Lemma except_exception_outcome :
  forall save_reject now_failed e job saved w,
    status job = processing ->
    let '(r, job', _, w') :=
      except_exception save_reject now_failed e job saved w in
    is_ok r = false /\
    status job' <> completed /\
    (forall e', r = Raise e' -> is_exception e' = true -> status job' = failed)
    /\ w' = w.
Proof.
  intros save_reject now_failed e job saved w Hstatus.
  unfold except_exception.
  destruct (is_exception e) eqn:He.
  - destruct (save_reject w _) as [e2 | ]; cbn;
      (split; [reflexivity|]); (split; [discriminate|]);
      (split; [reflexivity|reflexivity]).
  - split; [reflexivity|]. split; [rewrite Hstatus; discriminate|].
    split; [|reflexivity].
    intros e' [= <-] He'. congruence.
Qed.

(** X11. Under a database that enforces the primary key of
    [GeneratedSummary], [generate_summary] on a job whose summary is
    already stored never returns and never leaves the job completed; the
    stored summary and sections are left as they were; and whenever the
    exception that comes out is derived from [Exception] the job object
    is left failed. *)
Theorem rerun_on_stored_summary_fails :
  forall (json_loads : string -> result pyval)
         (split_text : string -> list string)
         (llm : nat -> prompt -> result (string * Z))
         (db_reject : world -> db_row -> option exn)
         (save_reject : world -> job_write -> option exn)
         (model_name : string) (time_start time_end : Q) (now now_failed : Z)
         (job : SummaryJob) (w : world),
    enforces_summary_key db_reject ->
    existsb (fun r => String.eqb (gs_id r)
                        (Utils.generate_summary_id (id job)))
      (generated_summaries w) = true ->
    let '(r, job', _, w') :=
      generate_summary json_loads split_text llm db_reject save_reject
        model_name time_start time_end now now_failed job w in
    is_ok r = false /\
    status job' <> completed /\
    (forall e, r = Raise e -> is_exception e = true -> status job' = failed) /\
    generated_summaries w' = generated_summaries w /\
    summary_sections w' = summary_sections w.
Proof.
  intros json_loads split_text llm db_reject save_reject model_name
    time_start time_end now now_failed job w Hkey Hstored.
  destruct (body_rejected_on_stored_key json_loads split_text llm db_reject
              (mark_processing job) w Hkey Hstored)
    as (e & w1 & Hbody & Hg & Hs).
  unfold generate_summary, try_block.
  destruct (save_reject w _) as [e0 | ].
  - pose proof (except_exception_outcome save_reject now_failed e0
                  (mark_processing job) [] w eq_refl) as H.
    destruct (except_exception save_reject now_failed e0
                (mark_processing job) [] w) as [[[r job'] saved] w'].
    destruct H as (Hr & Hc & Hf & ->). repeat split; assumption.
  - rewrite Hbody.
    pose proof (except_exception_outcome save_reject now_failed e
                  (mark_processing job)
                  [SaveFields ["status"; "updated_at"] (mark_processing job)]
                  w1 eq_refl) as H.
    destruct (except_exception save_reject now_failed e
                (mark_processing job)
                [SaveFields ["status"; "updated_at"] (mark_processing job)]
                w1) as [[[r job'] saved] w'].
    destruct H as (Hr & Hc & Hf & ->). repeat split; assumption.
Qed.

(** X13. A run that succeeds does not clear an [error_message] left by an
    earlier failure.  A run that fails before [mark_completed], at the
    save of [mark_processing] or in a stage, does not touch the model,
    token and duration fields left by an earlier success.  A run whose
    stages succeed and that fails at the save of [mark_completed] leaves
    on the job object the model, token count and duration that
    [mark_completed] had already assigned. *)
Theorem run_leaves_other_outcome_fields :
  forall (json_loads : string -> result pyval)
         (split_text : string -> list string)
         (llm : nat -> prompt -> result (string * Z))
         (db_reject : world -> db_row -> option exn)
         (save_reject : world -> job_write -> option exn)
         (model_name : string) (time_start time_end : Q) (now now_failed : Z)
         (job : SummaryJob) (w : world),
    let job1 := mark_processing job in
    let body := generate_body json_loads split_text llm db_reject job1 w in
    let '(r, job', _, _) :=
      generate_summary json_loads split_text llm db_reject save_reject
        model_name time_start time_end now now_failed job w in
    (is_ok r = true -> error_message job' = error_message job) /\
    (save_reject w (processing_write job) <> None ->
     is_ok r = false /\
     model_used job' = model_used job /\
     tokens_used job' = tokens_used job /\
     processing_time job' = processing_time job) /\
    (forall e w',
        body = (Raise e, w') ->
        is_ok r = false /\
        model_used job' = model_used job /\
        tokens_used job' = tokens_used job /\
        processing_time job' = processing_time job) /\
    (forall summary t w' e,
        save_reject w (processing_write job) = None ->
        body = (Ok (summary, PyInt t), w') ->
        let completed_job :=
          mark_completed now (Some model_name) (Some t)
            (Some (time_end - time_start)%Q) job1 in
        save_reject w' (SaveAll completed_job) = Some e ->
        is_ok r = false /\
        model_used job' = model_used completed_job /\
        tokens_used job' = tokens_used completed_job /\
        processing_time job' = processing_time completed_job /\
        (t <> 0 -> tokens_used job' = Some t)).
Proof.
  intros json_loads split_text llm db_reject save_reject model_name
    time_start time_end now now_failed job w job1 body.
  unfold generate_summary, try_block.
  fold (processing_write job). fold job1. fold body.
  destruct (save_reject w (processing_write job)) as [e0 | ] eqn:Hsave1.
  - unfold except_exception.
    destruct (is_exception e0);
      [destruct (save_reject w (SaveAll _)) as [e2 | ]|];
      cbv beta iota;
      (split; [intros H; discriminate H|]);
      (split; [intros _; repeat split|]);
      (split; [intros e w' _; repeat split|]);
      intros summary t w' e H; discriminate H.
  - clearbody body. destruct body as [[[summary tokens] | e] w1].
    + destruct (save_reject w1 (SaveAll _)) as [e1 | ] eqn:Hsave2.
      * unfold except_exception.
        destruct (is_exception e1);
          [destruct (save_reject w1 (SaveAll (mark_failed _ _ _)))
             as [e2 | ]|];
          cbv beta iota;
          (split; [intros H; discriminate H|]);
          (split; [intros H; now contradiction H|]);
          (split; [intros e w' H; discriminate H|]);
          intros summary' t w' e _ [= <- -> <-] Hrej;
          cbn [tokens_argument];
          (split; [reflexivity|]); (split; [reflexivity|]);
          (split; [reflexivity|]); (split; [reflexivity|]);
          intros Ht; cbn; apply Z.eqb_neq in Ht; now rewrite Ht.
      * cbv beta iota.
        split; [intros _; reflexivity|].
        split; [intros H; now contradiction H|].
        split; [intros e w' H; discriminate H|].
        intros summary' t w' e _ [= <- -> <-] Hrej.
        cbn [tokens_argument] in Hsave2.
        congruence.
    + unfold except_exception.
      destruct (is_exception e);
        [destruct (save_reject w1 (SaveAll _)) as [e2 | ]|];
        cbv beta iota;
        (split; [intros H; discriminate H|]);
        (split; [intros H; now contradiction H|]);
        (split; [intros e' w' _; repeat split|]);
        intros summary t w' e' _ H; discriminate H.
Qed.

(** ** Replies the parser lets through *)

(** X14. A reply that decodes to a list holding both key names, or to a
    text containing them, passes the parser's membership test and is
    returned as it is; [_single_document_summary] then raises [TypeError]
    when it stores the token count, after its one invocation. *)
Theorem non_dict_reply_raises_type_error :
  forall (json_loads : string -> result pyval)
         (llm : nat -> prompt -> result (string * Z))
         (job : SummaryJob) (content : string) (cfg : StakeholderConfig)
         (response : string) (t : Z) (v : pyval) (w : world),
    llm (List.length (llm_calls w)) (build_prompt job content cfg)
    = Ok (response, t) ->
    json_loads response = Ok v ->
    mentions_both_keys v = true ->
    _parse_llm_response json_loads response cfg (document_ids job) = Ok v /\
    exists msg,
      _single_document_summary json_loads llm job content cfg w
      = (Raise (Exn TypeError msg), log_calls [build_prompt job content cfg] w).
Proof.
  intros json_loads llm job content cfg response t v w Hllm Hload Hboth.
  assert (Hparse : _parse_llm_response json_loads response cfg (document_ids job)
                   = Ok v).
  { unfold _parse_llm_response. rewrite Hload.
    destruct v; try discriminate Hboth; simpl in *;
      apply andb_prop in Hboth; destruct Hboth as [H1 H2];
      now rewrite H1, H2. }
  split; [exact Hparse|].
  unfold _single_document_summary, bind, chain_run, lift.
  rewrite Hllm, Hparse.
  destruct v; try discriminate Hboth; eexists; reflexivity.
Qed.

(** X15. [_single_document_summary] replaces whatever the model put under
    ['tokens_used'] by the count of the callback and passes every other
    key of the reply through. *)
Theorem reply_tokens_are_overwritten :
  forall (json_loads : string -> result pyval)
         (llm : nat -> prompt -> result (string * Z))
         (job : SummaryJob) (content : string) (cfg : StakeholderConfig)
         (d : pydict) (t : Z) (w : world),
    good_reply json_loads llm (List.length (llm_calls w))
      (build_prompt job content cfg) d t ->
    exists summary_data,
      _single_document_summary json_loads llm job content cfg w
      = (Ok summary_data, log_calls [build_prompt job content cfg] w) /\
      dict_get "tokens_used" summary_data = Some (PyInt t) /\
      (forall key, key <> "tokens_used" ->
                   dict_get key summary_data = dict_get key d).
Proof.
  intros json_loads llm job content cfg d t w Hreply.
  exists (dict_set "tokens_used" (PyInt t) d).
  split; [now apply single_run|]. split.
  - apply dict_get_set_same.
  - intros key Hkey. now apply dict_get_set_other.
Qed.

(** ** Failures inside the synthesizer *)

Section SynthesizerFailures.

Variable json_loads : string -> result pyval.
Variable llm : nat -> prompt -> result (string * Z).
Variable job : SummaryJob.
Variable cfg : StakeholderConfig.

Lemma single_raises :
  forall content e w,
    llm (List.length (llm_calls w)) (build_prompt job content cfg) = Raise e ->
    _single_document_summary json_loads llm job content cfg w
    = (Raise e, log_calls [build_prompt job content cfg] w).
Proof.
  intros content e w Hllm.
  unfold _single_document_summary, bind, chain_run. now rewrite Hllm.
Qed.

Lemma map_chunks_raises :
  forall pre answers k,
    map_answers json_loads llm job cfg k pre answers ->
    forall chunk post e w chunk_summaries total_tokens,
      k = List.length (llm_calls w) ->
      llm (k + List.length pre)%nat (build_prompt job chunk cfg) = Raise e ->
      map_chunks json_loads llm job cfg (pre ++ chunk :: post)
        chunk_summaries total_tokens w
      = (Raise e,
         log_calls (map (fun c => build_prompt job c cfg) (pre ++ [chunk])) w).
Proof.
  intros pre answers k H.
  induction H as [ k | k c chunks d s t answers Hreply Hfull _ IH ];
    intros chunk post e w acc total Hk Hllm.
  - subst k. rewrite Nat.add_0_r in Hllm.
    cbn [app map_chunks map]. unfold bind at 1.
    now rewrite (single_raises _ _ _ Hllm).
  - subst k. cbn [app map_chunks]. unfold bind at 1.
    rewrite (single_run _ _ _ _ _ _ _ _ Hreply).
    unfold bind at 1, lift at 1. unfold py_getitem.
    rewrite dict_get_set_other by discriminate. rewrite Hfull.
    unfold bind at 1, lift at 1, dict_get_default.
    rewrite dict_get_set_same. unfold int_operand.
    rewrite (IH chunk post e).
    + now rewrite log_calls_app.
    + unfold log_calls. simpl. rewrite length_app. simpl. lia.
    + cbn [List.length] in Hllm. rewrite Nat.add_succ_r in Hllm. exact Hllm.
Qed.

End SynthesizerFailures.

(** X16. When the invocation for a chunk raises, after the chunks before
    it were answered well, [_multi_document_synthesis] raises the same
    exception at once: the chunks after it are never sent. *)
Theorem failed_invocation_stops_synthesis :
  forall (json_loads : string -> result pyval)
         (llm : nat -> prompt -> result (string * Z))
         (job : SummaryJob) (cfg : StakeholderConfig)
         (pre : list string) (chunk : string) (post : list string)
         (answers : list (string * Z)) (e : exn) (w : world),
    let k := List.length (llm_calls w) in
    map_answers json_loads llm job cfg k pre answers ->
    llm (k + List.length pre)%nat (build_prompt job chunk cfg) = Raise e ->
    let issued := map (fun c => build_prompt job c cfg) (pre ++ [chunk]) in
    _multi_document_synthesis json_loads llm job (pre ++ chunk :: post) cfg w
    = (Raise e, log_calls issued w) /\
    List.length issued = (List.length pre + 1)%nat.
Proof.
  intros json_loads llm job cfg pre chunk post answers e w k Hmap Hllm issued.
  split.
  - unfold _multi_document_synthesis. unfold bind at 1.
    now rewrite (map_chunks_raises _ _ _ _ _ _ _ Hmap chunk post e w [] 0
                   eq_refl Hllm).
  - unfold issued. rewrite length_map, length_app. reflexivity.
Qed.

(** X17. When every chunk was answered well and the reduce invocation
    raises, [_multi_document_synthesis] raises that exception after its
    N + 1 invocations and returns none of the chunk summaries. *)
Theorem failed_reduce_discards_chunk_summaries :
  forall (json_loads : string -> result pyval)
         (llm : nat -> prompt -> result (string * Z))
         (job : SummaryJob) (cfg : StakeholderConfig)
         (chunks : list string) (answers : list (string * Z))
         (e : exn) (w : world),
    let k := List.length (llm_calls w) in
    let reduce_input := join (newline ++ newline) (map fst answers) in
    map_answers json_loads llm job cfg k chunks answers ->
    llm (k + List.length chunks)%nat (build_prompt job reduce_input cfg)
    = Raise e ->
    _multi_document_synthesis json_loads llm job chunks cfg w
    = (Raise e,
       log_calls
         (map (fun c => build_prompt job c cfg) chunks
            ++ [build_prompt job reduce_input cfg])%list
         w).
Proof.
  intros json_loads llm job cfg chunks answers e w k reduce_input Hmap Hllm.
  unfold _multi_document_synthesis. unfold bind at 1.
  rewrite (map_chunks_run _ _ _ _ _ _ _ Hmap w [] 0 eq_refl). simpl app.
  unfold bind at 1, lift at 1, py_join.
  rewrite <- (map_map fst PyStr), str_items_strings.
  unfold bind at 1.
  rewrite (single_raises json_loads llm job cfg reduce_input e).
  - now rewrite log_calls_app.
  - unfold log_calls. simpl llm_calls. rewrite length_app, length_map.
    exact Hllm.
Qed.

(** ** Profiles of the known roles *)

(** X19. Each of the eight roles of [STAKEHOLDER_ROLES] has its own
    entry in [STAKEHOLDER_PROMPTS], with a focus and four section titles,
    so for them the default handed to the lookup is never used. *)
Theorem known_role_uses_own_profile :
  forall role : string,
    In role (map fst STAKEHOLDER_ROLES) ->
    exists profile,
      prompts_getitem role = Ok profile /\
      (forall default, prompts_get role default = profile) /\
      List.length (sections profile) = 4%nat /\
      focus profile <> "".
Proof.
  intros role H. simpl in H.
  repeat (destruct H as [<- | H];
          [eexists; repeat split; try reflexivity; discriminate|]).
  contradiction.
Qed.

(** ** A chunk summary that is not a text *)

Lemma str_items_non_text :
  forall items i,
    existsb (fun v => negb (is_text v)) items = true ->
    exists msg, str_items i items = Raise (Exn TypeError msg).
Proof.
  induction items as [ | v items IH ]; intros i H; [discriminate|].
  simpl in H. destruct v; simpl in H;
    try (eexists; reflexivity).
  destruct (IH (S i) H) as (msg & Hmsg). exists msg. simpl. now rewrite Hmsg.
Qed.

Lemma map_chunks_run_values :
  forall json_loads llm job cfg chunks replies k,
    map_replies json_loads llm job cfg k chunks replies ->
    forall w chunk_summaries total_tokens,
      k = List.length (llm_calls w) ->
      map_chunks json_loads llm job cfg chunks chunk_summaries total_tokens w
      = (Ok ((chunk_summaries ++ map fst replies)%list,
             total_tokens + fold_right Z.add 0 (map snd replies)),
         log_calls (map (fun c => build_prompt job c cfg) chunks) w).
Proof.
  intros json_loads llm job cfg chunks replies k H.
  induction H as [ k | k chunk chunks d v t replies Hreply Hfull _ IH ];
    intros w acc total Hk.
  - simpl. unfold ret. rewrite app_nil_r, Z.add_0_r. now rewrite log_calls_nil.
  - subst k. simpl map_chunks. unfold bind at 1.
    rewrite (single_run _ _ _ _ _ _ _ _ Hreply).
    unfold bind at 1, lift at 1. unfold py_getitem.
    rewrite dict_get_set_other by discriminate. rewrite Hfull.
    unfold bind at 1, lift at 1, dict_get_default.
    rewrite dict_get_set_same. unfold int_operand.
    rewrite IH.
    + rewrite log_calls_app, <- app_assoc. simpl. now rewrite Z.add_assoc.
    + unfold log_calls. simpl. rewrite length_app. simpl. lia.
Qed.

(** X18. When some chunk's reply carries a value that is not a text under
    ['full_summary'], [_multi_document_synthesis] raises [TypeError] while
    joining the chunk summaries: all chunks have been sent, the reduce
    invocation is never issued. *)
Theorem non_text_chunk_summary_raises :
  forall (json_loads : string -> result pyval)
         (llm : nat -> prompt -> result (string * Z))
         (job : SummaryJob) (cfg : StakeholderConfig)
         (chunks : list string) (replies : list (pyval * Z)) (w : world),
    map_replies json_loads llm job cfg (List.length (llm_calls w)) chunks
      replies ->
    existsb (fun reply => negb (is_text (fst reply))) replies = true ->
    exists msg,
      _multi_document_synthesis json_loads llm job chunks cfg w
      = (Raise (Exn TypeError msg),
         log_calls (map (fun c => build_prompt job c cfg) chunks) w).
Proof.
  intros json_loads llm job cfg chunks replies w Hmap Hbad.
  assert (Hitems : existsb (fun v => negb (is_text v)) (map fst replies) = true).
  { clear Hmap. induction replies as [ | r replies IH ]; [discriminate|].
    simpl in *. apply orb_prop in Hbad. destruct Hbad as [H | H].
    - now rewrite H.
    - rewrite (IH H). apply orb_true_r. }
  destruct (str_items_non_text _ 0%nat Hitems) as (msg & Hmsg).
  exists msg.
  unfold _multi_document_synthesis. unfold bind at 1.
  rewrite (map_chunks_run_values _ _ _ _ _ _ _ Hmap w [] 0 eq_refl). simpl app.
  unfold bind at 1, lift at 1, py_join. now rewrite Hmsg.
Qed.

Lemma non_text_chunk_summary_raises_witness :
  exists msg,
    _multi_document_synthesis MoreSamples.json_loads_more
      (Samples.llm_script
         [ (Samples.reply_with "first part", 10);
           (MoreSamples.reply_null_summary, 20) ])
      Samples.sample_job ["first chunk"; "second chunk"]
      (prompts_get "finance" executive_profile) empty_world
    = (Raise (Exn TypeError msg),
       log_calls
         [ build_prompt Samples.sample_job "first chunk"
             (prompts_get "finance" executive_profile);
           build_prompt Samples.sample_job "second chunk"
             (prompts_get "finance" executive_profile) ]
         empty_world).
Proof.
  apply (non_text_chunk_summary_raises MoreSamples.json_loads_more
           (Samples.llm_script
              [ (Samples.reply_with "first part", 10);
                (MoreSamples.reply_null_summary, 20) ])
           Samples.sample_job (prompts_get "finance" executive_profile)
           ["first chunk"; "second chunk"]
           [ (PyStr "first part", 10); (PyNone, 20) ] empty_world).
  - apply map_replies_cons
      with (d := [("sections", PyList []);
                  ("full_summary", PyStr "first part")]).
    + exists (Samples.reply_with "first part").
      repeat split; vm_compute; reflexivity.
    + reflexivity.
    + apply map_replies_cons
        with (d := [("sections", PyList []); ("full_summary", PyNone)]).
      * exists MoreSamples.reply_null_summary.
        repeat split; vm_compute; reflexivity.
      * reflexivity.
      * constructor.
  - reflexivity.
Defined.

(** ** Worked instances *)

Lemma validate_document_ids_accepts_witness :
  Utils.validate_document_ids [PyStr "doc1"; PyStr "doc2"] = true.
Proof.
  apply (proj2 (validate_document_ids_accepts [PyStr "doc1"; PyStr "doc2"])).
  split; [simpl; lia|].
  repeat constructor; eexists; (split; [reflexivity|discriminate]).
Defined.

Lemma fetch_keeps_rows_before_rejection_witness :
  _fetch_document_contexts MoreSamples.db_varchar MoreSamples.long_id_job
    empty_world
  = (Raise (Exn (OtherException "DataError")
              "value too long for type character varying(100)"),
     add_contexts [placeholder_context MoreSamples.long_id_job "doc1"]
       empty_world).
Proof.
  apply (fetch_keeps_rows_before_rejection MoreSamples.db_varchar
           MoreSamples.long_id_job ["doc1"] (Samples.letters 101) ["doc3"]).
  - reflexivity.
  - intros w' y [<- | []]. reflexivity.
  - intros w'. vm_compute. reflexivity.
Defined.

Lemma create_records_keeps_section_order_witness :
  let summary_data :=
    [ ("sections", PyList (map PyDict MoreSamples.two_sections));
      ("full_summary", PyStr "s") ] in
  let '(r, w') :=
    _create_summary_records MoreSamples.db_open Samples.sample_job
      summary_data empty_world in
  r = Ok (summary_row Samples.sample_job (PyStr "s")) /\
  map gs_id (generated_summaries w') = ["sum_job-1"] /\
  map sec_order (summary_sections w') = [0; 1] /\
  map sec_title (summary_sections w') = [PyStr "A"; PyStr "B"] /\
  map sec_key_points (summary_sections w') = [PyList []; PyList [PyStr "k"]].
Proof.
  cbv zeta.
  destruct (create_records_keeps_section_order MoreSamples.db_open
              Samples.sample_job
              [ ("sections", PyList (map PyDict MoreSamples.two_sections));
                ("full_summary", PyStr "s") ]
              (PyStr "s") MoreSamples.two_sections empty_world
              (fun _ _ => eq_refl) eq_refl eq_refl eq_refl)
    as (Hrun & _ & _ & Horder & Htitle).
  rewrite Hrun.
  split; [reflexivity|]. split; [reflexivity|].
  split; [exact Horder|]. split; [exact Htitle|reflexivity].
Defined.

Lemma successful_run_completes_job_witness :
  let '(r, job', saved, w') :=
    generate_summary MoreSamples.json_loads_more text_splitter
      (Samples.llm_constant MoreSamples.reply_two_sections 42)
      MoreSamples.db_open MoreSamples.save_int32 "gpt-4" 1%Q 3%Q
      1700000000 1700000001 Samples.sample_job empty_world in
  r = Ok (summary_row Samples.sample_job (PyStr "s")) /\
  status job' = completed /\
  tokens_used job' = Some 42 /\
  model_used job' = Some "gpt-4" /\
  saved = [processing_write Samples.sample_job; SaveAll job'] /\
  generated_summaries w' = [summary_row Samples.sample_job (PyStr "s")] /\
  map sec_order (summary_sections w') = [0; 1] /\
  List.length (document_contexts w') = 3%nat.
Proof.
  pose (job1 := mark_processing Samples.sample_job).
  pose (contexts := map (placeholder_context Samples.sample_job)
                      (document_ids Samples.sample_job)).
  pose (synth := _generate_with_langchain MoreSamples.json_loads_more
                   text_splitter
                   (Samples.llm_constant MoreSamples.reply_two_sections 42)
                   job1 contexts (add_contexts contexts empty_world)).
  pose (summary_data :=
          dict_set "tokens_used" (PyInt 42)
            [ ("sections", PyList (map PyDict MoreSamples.two_sections));
              ("full_summary", PyStr "s") ]).
  assert (Hgen : _generate_with_langchain MoreSamples.json_loads_more
                   text_splitter
                   (Samples.llm_constant MoreSamples.reply_two_sections 42)
                   job1 contexts (add_contexts contexts empty_world)
                 = (Ok (summary_data, PyInt 42), snd synth))
    by (vm_compute; reflexivity).
  destruct (successful_run_completes_job MoreSamples.json_loads_more
              text_splitter
              (Samples.llm_constant MoreSamples.reply_two_sections 42)
              MoreSamples.db_open MoreSamples.save_int32 "gpt-4" 1%Q 3%Q
              1700000000 1700000001
              Samples.sample_job empty_world (snd synth) summary_data 42
              (PyStr "s") MoreSamples.two_sections
              (fun _ _ => eq_refl) Hgen eq_refl eq_refl eq_refl
              eq_refl eq_refl)
    as (Hrun & Hstatus & Hsummaries & Hsections & Hcontexts).
  rewrite Hrun.
  split; [reflexivity|]. split; [exact Hstatus|]. split; [reflexivity|].
  split; [reflexivity|]. split; [reflexivity|]. split; [exact Hsummaries|].
  split; [rewrite Hsections; reflexivity|rewrite Hcontexts; reflexivity].
Defined.

Lemma rerun_on_stored_summary_fails_witness :
  let '(r, job', _, w') :=
    generate_summary Samples.json_loads_excerpt text_splitter
      (Samples.llm_constant (Samples.reply_with "s") 42)
      Samples.db_keys Samples.save_open "gpt-4" 1%Q 3%Q 1700000000
      1700000001 Samples.sample_job MoreSamples.stored_world in
  r = Raise (Exn IntegrityError
               "duplicate key value violates unique constraint") /\
  status job' = failed /\
  generated_summaries w' = generated_summaries MoreSamples.stored_world /\
  summary_sections w' = summary_sections MoreSamples.stored_world.
Proof.
  assert (Hkeys : enforces_summary_key Samples.db_keys).
  { intros w r Hstored. unfold Samples.db_keys.
    assert (Hany : existsb
                     (fun r' => String.eqb (gs_id r') (gs_id r)
                                || String.eqb (gs_job r') (gs_job r))
                     (generated_summaries w) = true).
    { apply existsb_exists in Hstored. destruct Hstored as (x & Hin & Hx).
      apply existsb_exists. exists x. split; [exact Hin|]. now rewrite Hx. }
    rewrite Hany. discriminate. }
  pose proof (rerun_on_stored_summary_fails Samples.json_loads_excerpt
                text_splitter
                (Samples.llm_constant (Samples.reply_with "s") 42)
                Samples.db_keys Samples.save_open "gpt-4" 1%Q 3%Q 1700000000
                1700000001 Samples.sample_job MoreSamples.stored_world
                Hkeys eq_refl) as H.
  assert (Hr : fst (fst (fst
                 (generate_summary Samples.json_loads_excerpt text_splitter
                    (Samples.llm_constant (Samples.reply_with "s") 42)
                    Samples.db_keys Samples.save_open "gpt-4" 1%Q 3%Q
                    1700000000 1700000001 Samples.sample_job
                    MoreSamples.stored_world)))
               = Raise (Exn IntegrityError
                          "duplicate key value violates unique constraint"))
    by (vm_compute; reflexivity).
  revert H Hr.
  generalize (generate_summary Samples.json_loads_excerpt text_splitter
                (Samples.llm_constant (Samples.reply_with "s") 42)
                Samples.db_keys Samples.save_open "gpt-4" 1%Q 3%Q 1700000000
                1700000001 Samples.sample_job MoreSamples.stored_world).
  intros [[[r job'] saved] w'] (_ & _ & Hfailed & Hg & Hs) Hr.
  simpl in Hr.
  exact (conj Hr (conj (Hfailed _ Hr eq_refl) (conj Hg Hs))).
Defined.

Lemma run_leaves_other_outcome_fields_witness :
  (let '(r, job', _, _) :=
     generate_summary Samples.json_loads_excerpt text_splitter
       (Samples.llm_constant (Samples.reply_with "s") 42)
       Samples.db_keys Samples.save_open "gpt-4" 1%Q 3%Q 1700000000
       1700000001 MoreSamples.failed_earlier_job empty_world in
   is_ok r = true /\
   error_message job' = Some "Rate limit reached") /\
  (let '(r, job', _, _) :=
     generate_summary Samples.json_loads_excerpt text_splitter
       (Samples.llm_constant (Samples.reply_with "s") 42)
       Samples.db_keys MoreSamples.save_closed "gpt-4o" 1%Q 3%Q 1700000000
       1700000001 Samples.finished_job empty_world in
   is_ok r = false /\
   model_used job' = Some "gpt-4" /\
   tokens_used job' = Some 1000 /\
   processing_time job' = Some (11 # 2)%Q) /\
  (let '(r, job', _, _) :=
     generate_summary Samples.json_loads_excerpt text_splitter
       Samples.llm_down Samples.db_keys Samples.save_open "gpt-4o" 1%Q 3%Q
       1700000000 1700000001 Samples.finished_job empty_world in
   is_ok r = false /\
   model_used job' = Some "gpt-4" /\
   tokens_used job' = Some 1000 /\
   processing_time job' = Some (11 # 2)%Q) /\
  (let '(r, job', _, _) :=
     generate_summary Samples.json_loads_excerpt text_splitter
       (Samples.llm_constant (Samples.reply_with "s") 2147483648)
       Samples.db_keys MoreSamples.save_int32 "gpt-4o" 1%Q 3%Q 1700000000
       1700000001 Samples.finished_job empty_world in
   is_ok r = false /\
   model_used job' = Some "gpt-4o" /\
   tokens_used job' = Some 2147483648).
Proof.
  split; [|split; [|split]].
  - pose proof (run_leaves_other_outcome_fields Samples.json_loads_excerpt
                  text_splitter
                  (Samples.llm_constant (Samples.reply_with "s") 42)
                  Samples.db_keys Samples.save_open "gpt-4" 1%Q 3%Q
                  1700000000 1700000001
                  MoreSamples.failed_earlier_job empty_world) as H.
    assert (Hok : is_ok (fst (fst (fst
                    (generate_summary Samples.json_loads_excerpt text_splitter
                       (Samples.llm_constant (Samples.reply_with "s") 42)
                       Samples.db_keys Samples.save_open "gpt-4" 1%Q 3%Q
                       1700000000 1700000001
                       MoreSamples.failed_earlier_job empty_world)))) = true)
      by (vm_compute; reflexivity).
    cbv zeta in H. revert H Hok.
    generalize (generate_summary Samples.json_loads_excerpt text_splitter
                  (Samples.llm_constant (Samples.reply_with "s") 42)
                  Samples.db_keys Samples.save_open "gpt-4" 1%Q 3%Q
                  1700000000 1700000001
                  MoreSamples.failed_earlier_job empty_world).
    intros [[[r job'] saved] w'] [Hkeep _] Hok. simpl in Hok.
    split; [exact Hok|exact (Hkeep Hok)].
  - pose proof (run_leaves_other_outcome_fields Samples.json_loads_excerpt
                  text_splitter
                  (Samples.llm_constant (Samples.reply_with "s") 42)
                  Samples.db_keys MoreSamples.save_closed "gpt-4o" 1%Q 3%Q
                  1700000000 1700000001
                  Samples.finished_job empty_world) as H.
    cbv zeta in H. revert H.
    generalize (generate_summary Samples.json_loads_excerpt text_splitter
                  (Samples.llm_constant (Samples.reply_with "s") 42)
                  Samples.db_keys MoreSamples.save_closed "gpt-4o" 1%Q 3%Q
                  1700000000 1700000001
                  Samples.finished_job empty_world).
    intros [[[r job'] saved] w'] (_ & Hclosed & _).
    apply Hclosed. discriminate.
  - pose proof (run_leaves_other_outcome_fields Samples.json_loads_excerpt
                  text_splitter Samples.llm_down
                  Samples.db_keys Samples.save_open "gpt-4o" 1%Q 3%Q
                  1700000000 1700000001
                  Samples.finished_job empty_world) as H.
    pose (body := generate_body Samples.json_loads_excerpt text_splitter
                    Samples.llm_down Samples.db_keys
                    (mark_processing Samples.finished_job) empty_world).
    assert (Hbody : generate_body Samples.json_loads_excerpt text_splitter
                      Samples.llm_down Samples.db_keys
                      (mark_processing Samples.finished_job) empty_world
                    = (Raise (Exn (OtherException "RateLimitError")
                                "Rate limit reached"), snd body))
      by (vm_compute; reflexivity).
    cbv zeta in H. revert H.
    generalize (generate_summary Samples.json_loads_excerpt text_splitter
                  Samples.llm_down
                  Samples.db_keys Samples.save_open "gpt-4o" 1%Q 3%Q
                  1700000000 1700000001
                  Samples.finished_job empty_world).
    intros [[[r job'] saved] w'] (_ & _ & Hstage & _).
    exact (Hstage _ _ Hbody).
  - pose proof (run_leaves_other_outcome_fields Samples.json_loads_excerpt
                  text_splitter
                  (Samples.llm_constant (Samples.reply_with "s") 2147483648)
                  Samples.db_keys MoreSamples.save_int32 "gpt-4o" 1%Q 3%Q
                  1700000000 1700000001
                  Samples.finished_job empty_world) as H.
    pose (body := generate_body Samples.json_loads_excerpt text_splitter
                    (Samples.llm_constant (Samples.reply_with "s") 2147483648)
                    Samples.db_keys
                    (mark_processing Samples.finished_job) empty_world).
    assert (Hbody : generate_body Samples.json_loads_excerpt text_splitter
                      (Samples.llm_constant (Samples.reply_with "s")
                         2147483648)
                      Samples.db_keys
                      (mark_processing Samples.finished_job) empty_world
                    = (Ok (summary_row Samples.finished_job (PyStr "s"),
                           PyInt 2147483648), snd body))
      by (vm_compute; reflexivity).
    cbv zeta in H. revert H.
    generalize (generate_summary Samples.json_loads_excerpt text_splitter
                  (Samples.llm_constant (Samples.reply_with "s") 2147483648)
                  Samples.db_keys MoreSamples.save_int32 "gpt-4o" 1%Q 3%Q
                  1700000000 1700000001
                  Samples.finished_job empty_world).
    intros [[[r job'] saved] w'] (_ & _ & _ & Hsave).
    destruct (Hsave _ _ _ _ eq_refl Hbody eq_refl)
      as (Hr & Hm & _ & _ & Ht).
    split; [exact Hr|]. split; [exact Hm|]. apply Ht. discriminate.
Defined.

Lemma non_dict_reply_raises_type_error_witness :
  _parse_llm_response MoreSamples.json_loads_more MoreSamples.reply_key_list
    (prompts_get "finance" executive_profile) ["doc1"; "doc2"; "doc3"]
  = Ok (PyList [PyStr "sections"; PyStr "full_summary"]) /\
  exists msg,
    _single_document_summary MoreSamples.json_loads_more
      (Samples.llm_constant MoreSamples.reply_key_list 42)
      Samples.sample_job "The budget is on track."
      (prompts_get "finance" executive_profile) empty_world
    = (Raise (Exn TypeError msg),
       log_calls
         [build_prompt Samples.sample_job "The budget is on track."
            (prompts_get "finance" executive_profile)]
         empty_world).
Proof.
  apply (non_dict_reply_raises_type_error MoreSamples.json_loads_more
           (Samples.llm_constant MoreSamples.reply_key_list 42)
           Samples.sample_job "The budget is on track."
           (prompts_get "finance" executive_profile)
           MoreSamples.reply_key_list 42
           (PyList [PyStr "sections"; PyStr "full_summary"]) empty_world);
    reflexivity.
Defined.

Lemma reply_tokens_are_overwritten_witness :
  exists summary_data,
    _single_document_summary MoreSamples.json_loads_more
      (Samples.llm_constant MoreSamples.reply_own_tokens 42)
      Samples.sample_job "The budget is on track."
      (prompts_get "finance" executive_profile) empty_world
    = (Ok summary_data,
       log_calls
         [build_prompt Samples.sample_job "The budget is on track."
            (prompts_get "finance" executive_profile)]
         empty_world) /\
    dict_get "tokens_used" summary_data = Some (PyInt 42) /\
    dict_get "full_summary" summary_data = Some (PyStr "s").
Proof.
  destruct (reply_tokens_are_overwritten MoreSamples.json_loads_more
              (Samples.llm_constant MoreSamples.reply_own_tokens 42)
              Samples.sample_job "The budget is on track."
              (prompts_get "finance" executive_profile)
              MoreSamples.own_tokens 42 empty_world)
    as (summary_data & Hrun & Htokens & Hkeys).
  - exists MoreSamples.reply_own_tokens. repeat split; reflexivity.
  - exists summary_data. split; [exact Hrun|]. split; [exact Htokens|].
    rewrite Hkeys by discriminate. reflexivity.
Defined.

Lemma failed_invocation_stops_synthesis_witness :
  let cfg := prompts_get "finance" executive_profile in
  _multi_document_synthesis Samples.json_loads_excerpt
    (Samples.llm_script [ (Samples.reply_with "first part", 10) ])
    Samples.sample_job ["first chunk"; "second chunk"; "third chunk"] cfg
    empty_world
  = (Raise (Exn (OtherException "RateLimitError") "Rate limit reached"),
     log_calls
       [ build_prompt Samples.sample_job "first chunk" cfg;
         build_prompt Samples.sample_job "second chunk" cfg ]
       empty_world).
Proof.
  cbv zeta.
  apply (failed_invocation_stops_synthesis Samples.json_loads_excerpt
           (Samples.llm_script [ (Samples.reply_with "first part", 10) ])
           Samples.sample_job (prompts_get "finance" executive_profile)
           ["first chunk"] "second chunk" ["third chunk"]
           [("first part", 10)]
           (Exn (OtherException "RateLimitError") "Rate limit reached")
           empty_world).
  - apply map_answers_cons
      with (d := [("sections", PyList []);
                  ("full_summary", PyStr "first part")]).
    + exists (Samples.reply_with "first part").
      repeat split; vm_compute; reflexivity.
    + reflexivity.
    + constructor.
  - reflexivity.
Defined.

Lemma failed_reduce_discards_chunk_summaries_witness :
  let cfg := prompts_get "finance" executive_profile in
  _multi_document_synthesis Samples.json_loads_excerpt
    (Samples.llm_script
       [ (Samples.reply_with "first part", 10);
         (Samples.reply_with "second part", 20) ])
    Samples.sample_job ["first chunk"; "second chunk"] cfg empty_world
  = (Raise (Exn (OtherException "RateLimitError") "Rate limit reached"),
     log_calls
       [ build_prompt Samples.sample_job "first chunk" cfg;
         build_prompt Samples.sample_job "second chunk" cfg;
         build_prompt Samples.sample_job
           (join (newline ++ newline) ["first part"; "second part"]) cfg ]
       empty_world).
Proof.
  cbv zeta.
  apply (failed_reduce_discards_chunk_summaries Samples.json_loads_excerpt
           (Samples.llm_script
              [ (Samples.reply_with "first part", 10);
                (Samples.reply_with "second part", 20) ])
           Samples.sample_job (prompts_get "finance" executive_profile)
           ["first chunk"; "second chunk"]
           [("first part", 10); ("second part", 20)]
           (Exn (OtherException "RateLimitError") "Rate limit reached")
           empty_world).
  - apply map_answers_cons
      with (d := [("sections", PyList []);
                  ("full_summary", PyStr "first part")]).
    + exists (Samples.reply_with "first part").
      repeat split; vm_compute; reflexivity.
    + reflexivity.
    + apply map_answers_cons
        with (d := [("sections", PyList []);
                    ("full_summary", PyStr "second part")]).
      * exists (Samples.reply_with "second part").
        repeat split; vm_compute; reflexivity.
      * reflexivity.
      * constructor.
  - reflexivity.
Defined.

Lemma known_role_uses_own_profile_witness :
  exists profile,
    prompts_getitem "legal" = Ok profile /\
    (forall default, prompts_get "legal" default = profile) /\
    List.length (sections profile) = 4%nat /\
    focus profile <> "".
Proof.
  apply (known_role_uses_own_profile "legal"). simpl. tauto.
Defined.
